(** * Frechet Audio Distance: a model of [src/model/fad.py]

    The development embeds the class [FAD] of the repository: the
    statistics estimator, the closed-form Frechet distance with its
    singular-product recovery and complex-residue validation, the
    on-disk cache of background statistics and the [score] entry point.

    Scalars are kept behind the interface [Scalar]; its instance is the
    IEEE binary64 numbers, what numpy computes with, and every example is
    evaluated there.  numpy arrays of rank 0, 1 and 2 are the values of
    [ndarray]; a rank-2 array is the list of its rows, so an array without
    rows is 0 x 0.  The collaborators whose code is outside the repository
    (the VGGish network, [resampy.resample], [scipy.linalg.sqrtm]) are
    variables of the sections below; numpy, [os.path] and [torch.save] /
    [torch.load] are modelled after their documented behaviour.  What the
    program prints is not part of the model. *)

From Stdlib Require Import List Bool Arith ZArith Lia Ascii String.
From Stdlib Require Import Floats.
From stdpp Require Import gmap strings list.

Set Warnings "-inexact-float".

Close Scope Z_scope.

(** ** Scalars *)

(** The operations numpy applies to the entries of an array. *)
Class Scalar (F : Type) := {
  f0 : F;
  f1 : F;
  fadd : F -> F -> F;
  fsub : F -> F -> F;
  fmul : F -> F -> F;
  fdiv : F -> F -> F;
  fabs : F -> F;
  fleb : F -> F -> bool;
  feqb : F -> F -> bool;
  fisfinite : F -> bool;
  fmax : F -> F -> F;
  of_Z : Z -> F
}.

Declare Scope scalar_scope.
Delimit Scope scalar_scope with F.
Infix "+" := fadd : scalar_scope.
Infix "-" := fsub : scalar_scope.
Infix "*" := fmul : scalar_scope.
Infix "/" := fdiv : scalar_scope.

(** binary64, the dtype of every array the program handles.  [fmax] is
    [np.maximum]: a NaN on either side is propagated. *)
#[export] Instance float_Scalar : Scalar float := {
  f0 := PrimFloat.zero;
  f1 := PrimFloat.one;
  fadd := PrimFloat.add;
  fsub := PrimFloat.sub;
  fmul := PrimFloat.mul;
  fdiv := PrimFloat.div;
  fabs := PrimFloat.abs;
  fleb := PrimFloat.leb;
  feqb := PrimFloat.eqb;
  fisfinite := PrimFloat.is_finite;
  fmax := fun x y =>
    if PrimFloat.is_nan x then x
    else if PrimFloat.is_nan y then y
    else if PrimFloat.ltb x y then y else x;
  of_Z := fun z =>
    if (z <? 0)%Z then PrimFloat.opp (PrimFloat.of_uint63 (Uint63.of_Z (- z)))
    else PrimFloat.of_uint63 (Uint63.of_Z z)
}.

(** ** Outcomes *)

(** The exceptions that can leave the program. *)
Inductive exn (F : Type) : Type :=
| AssertionError (msg : string)
| ImaginaryComponent (m : F)
    (* ValueError('Imaginary component {}'.format(m)) *)
| ValueError (msg : string)
| TypeError (msg : string)
| RuntimeError (msg : string)
| CollaboratorError (msg : string).

Arguments AssertionError {F} msg.
Arguments ImaginaryComponent {F} m.
Arguments ValueError {F} msg.
Arguments TypeError {F} msg.
Arguments RuntimeError {F} msg.
Arguments CollaboratorError {F} msg.

Inductive outcome (F A : Type) : Type :=
| Ok (a : A)
| Raise (e : exn F).

Arguments Ok {F A} a.
Arguments Raise {F A} e.

Definition obind {F A B} (c : outcome F A) (k : A -> outcome F B) : outcome F B :=
  match c with
  | Ok a => k a
  | Raise e => Raise e
  end.

Definition omap {F A B} (f : A -> B) (c : outcome F A) : outcome F B :=
  obind c (fun a => Ok (f a)).

#[export] Instance outcome_ret {F} : MRet (outcome F) := fun A a => Ok a.
#[export] Instance outcome_bind {F} : MBind (outcome F) := fun A B k c => obind c k.

(** ** numpy arrays *)

Abbreviation matrix F := (list (list F)).

(** An array of rank 0, 1 or 2; a rank-2 array is the list of its rows. *)
Inductive ndarray (F : Type) : Type :=
| Arr0 (x : F)
| Arr1 (v : list F)
| Arr2 (m : matrix F).

Arguments Arr0 {F} x.
Arguments Arr1 {F} v.
Arguments Arr2 {F} m.

(** What [sqrtm] returns: a real array, or one of complex dtype whose
    entries are pairs (real part, imaginary part). *)
Inductive carray (F : Type) : Type :=
| RealArr (m : matrix F)
| ComplexArr (m : matrix (F * F)).

Arguments RealArr {F} m.
Arguments ComplexArr {F} m.

Definition nrows {A} (m : matrix A) : nat := length m.
Definition ncols {A} (m : matrix A) : nat := length (hd [] m).

Definition shape {F} (a : ndarray F) : list nat :=
  match a with
  | Arr0 _ => []
  | Arr1 v => [length v]
  | Arr2 m => [nrows m; ncols m]
  end.

Definition mshape {A} (m : matrix A) : list nat := [nrows m; ncols m].

Definition shape_eqb (s t : list nat) : bool := bool_decide (s = t).

Definition atleast_1d {F} (a : ndarray F) : ndarray F :=
  match a with
  | Arr0 x => Arr1 [x]
  | _ => a
  end.

Definition atleast_2d {F} (a : ndarray F) : matrix F :=
  match a with
  | Arr0 x => [[x]]
  | Arr1 v => [v]
  | Arr2 m => m
  end.

Definition arr_map {F} (f : F -> F) (a : ndarray F) : ndarray F :=
  match a with
  | Arr0 x => Arr0 (f x)
  | Arr1 v => Arr1 (map f v)
  | Arr2 m => Arr2 (map (map f) m)
  end.

Section Numpy.
Context {F : Type} `{Scalar F}.

Local Open Scope scalar_scope.

(** [np.add.reduce]: the first entry starts the accumulation. *)
Definition sum (l : list F) : F :=
  match l with
  | [] => f0
  | x :: r => fold_left fadd r x
  end.

Definition vdot (u v : list F) : F := sum (zip_with fmul u v).

Definition column {A} (d : A) (j : nat) (m : matrix A) : list A :=
  map (fun r => nth j r d) m.

Definition matmul (a b : matrix F) : matrix F :=
  map (fun r => map (fun j => vdot r (column f0 j b)) (seq 0 (ncols b))) a.

(** [a.dot(b)] for rank-2 operands. *)
Definition mdot (a b : matrix F) : outcome F (matrix F) :=
  if ncols a =? nrows b then Ok (matmul a b)
  else Raise (ValueError "shapes not aligned").

(** [a.dot(b)] for operands of rank at most 2. *)
Definition dot (a b : ndarray F) : outcome F (ndarray F) :=
  match a, b with
  | Arr0 x, _ => Ok (arr_map (fmul x) b)
  | _, Arr0 y => Ok (arr_map (fun x => x * y) a)
  | Arr1 u, Arr1 v =>
      if length u =? length v then Ok (Arr0 (vdot u v))
      else Raise (ValueError "shapes not aligned")
  | Arr1 u, Arr2 b =>
      if length u =? nrows b
      then Ok (Arr1 (map (fun j => vdot u (column f0 j b)) (seq 0 (ncols b))))
      else Raise (ValueError "shapes not aligned")
  | Arr2 a, Arr1 v =>
      if ncols a =? length v then Ok (Arr1 (map (fun r => vdot r v) a))
      else Raise (ValueError "shapes not aligned")
  | Arr2 a, Arr2 b => omap Arr2 (mdot a b)
  end.

(** [a - b] for arrays of one shape. *)
Definition arr_sub (a b : ndarray F) : outcome F (ndarray F) :=
  match a, b with
  | Arr0 x, Arr0 y => Ok (Arr0 (x - y))
  | Arr1 u, Arr1 v => Ok (Arr1 (zip_with fsub u v))
  | Arr2 a, Arr2 b => Ok (Arr2 (zip_with (zip_with fsub) a b))
  | _, _ => Raise (ValueError "operands could not be broadcast together")
  end.

Definition madd (a b : matrix F) : matrix F := zip_with (zip_with fadd) a b.

Definition diagonal {A} (d : A) (m : matrix A) : list A :=
  map (fun i => nth i (nth i m []) d) (seq 0 (min (nrows m) (ncols m))).

Definition trace (m : matrix F) : F := sum (diagonal f0 m).

Definition eye (n : nat) : matrix F :=
  map (fun i => map (fun j => if i =? j then f1 else f0) (seq 0 n)) (seq 0 n).

Definition mscale (m : matrix F) (c : F) : matrix F := map (map (fun x => x * c)) m.

(** [np.isfinite(c).all()] *)
Definition isfinite_all (c : carray F) : bool :=
  match c with
  | RealArr m => forallb (forallb fisfinite) m
  | ComplexArr m => forallb (forallb (fun z => fisfinite (fst z) && fisfinite (snd z))) m
  end.

Definition real_part (m : matrix (F * F)) : matrix F := map (map fst) m.
Definition imag_part (m : matrix (F * F)) : matrix F := map (map snd) m.

(** [1e-3], [1e-5] and [1e-6]: the quotient of two exactly represented
    integers is the correctly rounded decimal literal. *)
Definition atol_1e_3 : F := f1 / of_Z 1000.
Definition rtol_default : F := f1 / of_Z 100000.
Definition eps_default : F := f1 / of_Z 1000000.

(** [np.isclose(x, y, rtol, atol)] on scalars. *)
Definition isclose (x y rtol atol : F) : bool :=
  (fleb (fabs (x - y)) (atol + rtol * fabs y) && fisfinite y) || feqb x y.

(** [np.allclose(l, 0, atol=atol)] *)
Definition allclose_zero (l : list F) (atol : F) : bool :=
  forallb (fun x => isclose x f0 rtol_default atol) l.

(** [np.max(np.abs(m))]; numpy raises on an array without entries, a case
    the caller below never reaches (see [amax_abs_reached]). *)
Definition amax_abs (m : matrix F) : F :=
  match map fabs (concat m) with
  | [] => f0
  | x :: r => fold_left fmax r x
  end.

End Numpy.

(** ** The statistics estimator *)

Section Estimator.
Context {F : Type} `{Scalar F}.

Local Open Scope scalar_scope.

(** [np.mean(x, axis=0)] of an N x D array: one mean per column. *)
Definition mean_axis0 (x : matrix F) : list F :=
  map (fun j => sum (column f0 j x) / of_Z (Z.of_nat (nrows x))) (seq 0 (ncols x)).

(** [c.squeeze()] of a rank-2 array. *)
Definition squeeze (c : matrix F) : ndarray F :=
  match c with
  | [[x]] => Arr0 x
  | [v] => Arr1 v
  | _ => if ncols c =? 1 then Arr1 (map (fun r => nth 0 r f0) c) else Arr2 c
  end.

(** [np.cov(x, rowvar=False)] of an N x D array (numpy 2: the array is
    always transposed to variables x observations): subtract the mean of
    each variable, multiply by the transpose, scale by [1 / (N - 1)] with
    the divisor replaced by [0.0] when it is not positive, squeeze. *)
Definition cov (x : matrix F) : ndarray F :=
  let d := ncols x in
  if d =? 0 then Arr2 []
  else
    let avg := mean_axis0 x in
    let xt := map (fun j => map (fun r => nth j r f0 - nth j avg f0) x) (seq 0 d) in
    let fact := (Z.of_nat (nrows x) - 1)%Z in
    let fact := if (fact <=? 0)%Z then 0%Z else fact in
    let c := map (fun r => map (fun q => vdot r q) xt) xt in
    squeeze (mscale c (f1 / of_Z fact)).

(** [FAD.calculate_embd_statistics] *)
Definition calculate_embd_statistics (embd_lst : matrix F) : ndarray F * ndarray F :=
  let mu := Arr1 (mean_axis0 embd_lst) in
  let sigma := cov embd_lst in
  (mu, sigma).

End Estimator.

(** ** The Frechet distance *)

Section Frechet.
Context {F : Type} `{Scalar F}.

(** [scipy.linalg.sqrtm]: the matrix it returns (real or complex dtype),
    or the exception it raises. *)
Variable sqrtm : matrix F -> outcome F (carray F).

Local Open Scope scalar_scope.

(** Lines 93-100: the square root of the product, recomputed on the
    offset covariances when an entry is not finite. *)
Definition covmean_of (sigma1 sigma2 : matrix F) (eps : F) : outcome F (carray F) :=
  p ← mdot sigma1 sigma2;
  covmean ← sqrtm p;
  if negb (isfinite_all covmean) then
    let offset := mscale (eye (nrows sigma1)) eps in
    p' ← mdot (madd sigma1 offset) (madd sigma2 offset);
    sqrtm p'
  else Ok covmean.

(** Lines 102-107: the complex-residue validation.  [np.iscomplexobj]
    tests the dtype, here the constructor. *)
Definition discard_imag (covmean : carray F) : outcome F (matrix F) :=
  match covmean with
  | RealArr m => Ok m
  | ComplexArr m =>
      if negb (allclose_zero (diagonal f0 (imag_part m)) atol_1e_3) then
        Raise (ImaginaryComponent (amax_abs (imag_part m)))
      else Ok (real_part m)
  end.

(** Lines 109-112. *)
Definition frechet_formula (diff : ndarray F) (sigma1 sigma2 covmean : matrix F)
  : outcome F (ndarray F) :=
  let tr_covmean := trace covmean in
  dd ← dot diff diff;
  Ok (arr_map (fun x => x + trace sigma1 + trace sigma2 - of_Z 2 * tr_covmean) dd).

(** [FAD.calculate_frechet_distance] *)
Definition calculate_frechet_distance
    (mu1 sigma1 mu2 sigma2 : ndarray F) (eps : F) : outcome F (ndarray F) :=
  let mu1 := atleast_1d mu1 in
  let mu2 := atleast_1d mu2 in
  let sigma1 := atleast_2d sigma1 in
  let sigma2 := atleast_2d sigma2 in
  if negb (shape_eqb (shape mu1) (shape mu2)) then
    Raise (AssertionError "Training and test mean vectors have different lengths")
  else if negb (shape_eqb (mshape sigma1) (mshape sigma2)) then
    Raise (AssertionError "Training and test covariances have different dimensions")
  else
    diff ← arr_sub mu1 mu2;
    covmean ← covmean_of sigma1 sigma2 eps;
    covmean ← discard_imag covmean;
    frechet_formula diff sigma1 sigma2 covmean.

End Frechet.

(** ** The world outside the process *)

(** The file system as the program sees it, and the number of times the
    embedding network has been run.  A file holds what [torch.save] wrote:
    a pair (mean, covariance).  Directories are named without a trailing
    slash. *)
Record world (F : Type) : Type := World {
  files : gmap string (ndarray F * ndarray F);
  dirs : gset string;
  forward_calls : nat
}.

Arguments World {F} files dirs forward_calls.
Arguments files {F} w.
Arguments dirs {F} w.
Arguments forward_calls {F} w.

(** The world after [n] more runs of the network. *)
Definition ran {F} (n : nat) (w : world F) : world F :=
  World (files w) (dirs w) (forward_calls w + n).

(** A computation that reads and writes the world and may raise. *)
Definition M (F A : Type) : Type := world F -> outcome F A * world F.

#[export] Instance M_ret {F} : MRet (M F) := fun A a w => (Ok a, w).
#[export] Instance M_bind {F} : MBind (M F) := fun A B k c w =>
  match c w with
  | (Ok a, w') => k a w'
  | (Raise e, w') => (Raise e, w')
  end.

Definition lift {F A} (c : outcome F A) : M F A := fun w => (c, w).

(** *** Paths *)

Definition is_slash (c : ascii) : bool := bool_decide (c = "/"%char).

Fixpoint ends_with_slash (s : string) : bool :=
  match s with
  | EmptyString => false
  | String c EmptyString => is_slash c
  | String _ r => ends_with_slash r
  end.

(** [os.path.join(a, b)] for a relative [b]. *)
Definition path_join (a b : string) : string :=
  if bool_decide (a = EmptyString) || ends_with_slash a then a +:+ b
  else a +:+ "/" +:+ b.

(** The prefix of a path up to its last slash, the slash included. *)
Fixpoint upto_last_slash (s : string) : string :=
  match s with
  | EmptyString => EmptyString
  | String c r =>
      match upto_last_slash r with
      | EmptyString => if is_slash c then String c EmptyString else EmptyString
      | h => String c h
      end
  end.

Fixpoint all_slashes (s : string) : bool :=
  match s with
  | EmptyString => true
  | String c r => is_slash c && all_slashes r
  end.

Fixpoint rstrip_slashes (s : string) : string :=
  match s with
  | EmptyString => EmptyString
  | String c r =>
      match rstrip_slashes r with
      | EmptyString => if is_slash c then EmptyString else String c EmptyString
      | r' => String c r'
      end
  end.

(** [os.path.dirname] *)
Definition dirname (p : string) : string :=
  let head := upto_last_slash p in
  if all_slashes head then head else rstrip_slashes head.

(** The file [calculate_embd_statistics_background] keeps the statistics in. *)
Definition cache_file (save_path : string) : string :=
  path_join save_path "background_statistics.ptc".

(** *** The persistence capability *)

(** [os.path.exists] *)
Definition path_exists {F} (p : string) : M F bool := fun w =>
  (Ok (bool_decide (is_Some (files w !! p)) || bool_decide (p ∈ dirs w)), w).

(** [torch.load] *)
Definition torch_load {F} (p : string) : M F (ndarray F * ndarray F) := fun w =>
  match files w !! p with
  | Some st => (Ok st, w)
  | None => (Raise (RuntimeError "cannot open the file for reading"), w)
  end.

(** [torch.save]: the file is created in a directory that exists (the
    current directory, named by the empty string, always does); no
    directory is ever made. *)
Definition torch_save {F} (st : ndarray F * ndarray F) (p : string) : M F unit := fun w =>
  if bool_decide (dirname p = EmptyString) || bool_decide (dirname p ∈ dirs w) then
    if bool_decide (p ∈ dirs w) then (Raise (RuntimeError "the path is a directory"), w)
    else (Ok tt, World (<[p := st]> (files w)) (dirs w) (forward_calls w))
  else (Raise (RuntimeError "Parent directory does not exist"), w).

(** ** The orchestrator *)

Definition SAMPLE_RATE : Z := 16000%Z.

(** The integer [-1] that stands for an empty set. *)
Definition EMPTY : Z := (-1)%Z.

(** What [calculate_embd_statistics_background] returns: a pair of
    statistics or a Python int. *)
Inductive background_value (F : Type) : Type :=
| Statistics (mu sigma : ndarray F)
| StatInt (z : Z).

Arguments Statistics {F} mu sigma.
Arguments StatInt {F} z.

(** What [score] returns: a distance or a Python int. *)
Inductive score_value (F : Type) : Type :=
| Distance (d : ndarray F)
| ScoreInt (z : Z).

Arguments Distance {F} d.
Arguments ScoreInt {F} z.

(** [np.concatenate(l, axis=0)] of arrays of one width. *)
Definition np_concatenate {F} (l : list (matrix F)) : outcome F (matrix F) :=
  match l with
  | [] => Raise (ValueError "need at least one array to concatenate")
  | _ => Ok (concat l)
  end.

Fixpoint map_outcome {F A B} (f : A -> outcome F B) (l : list A) : outcome F (list B) :=
  match l with
  | [] => Ok []
  | a :: r => b ← f a; bs ← map_outcome f r; Ok (b :: bs)
  end.

Section Orchestrator.
Context {F : Type} `{Scalar F}.

(** A sample of the data set (a torch tensor at 48 kHz) and a mono
    waveform at 16 kHz. *)
Context {tensor audio : Type}.

(** [np.mean(resampy.resample(sample.detach().squeeze().numpy(), 48_000,
    SAMPLE_RATE), axis=0)], and the same without [squeeze]. *)
Variable resample_squeezed : tensor -> outcome F audio.
Variable resample : tensor -> outcome F audio.

(** [self.model.forward(audio, sr).detach().numpy()]: one row per frame. *)
Variable model_forward : audio -> Z -> outcome F (matrix F).

Variable sqrtm : matrix F -> outcome F (carray F).

Definition forward (a : audio) (sr : Z) : M F (matrix F) := fun w =>
  (model_forward a sr, World (files w) (dirs w) (S (forward_calls w))).

(** The number of runs of the network the loop of [get_embeddings] makes:
    one per waveform, up to the first one that fails. *)
Fixpoint forward_runs (x : list audio) (sr : Z) : nat :=
  match x with
  | [] => 0
  | a :: r =>
      match model_forward a sr with
      | Ok _ => S (forward_runs r sr)
      | Raise _ => 1
      end
  end.

(** The loop of [get_embeddings]. *)
Fixpoint embed_each (x : list audio) (sr : Z) : M F (list (matrix F)) :=
  match x with
  | [] => mret []
  | a :: r =>
      embd ← forward a sr;
      embd_lst ← embed_each r sr;
      mret (embd :: embd_lst)
  end.

(** [FAD.get_embeddings] *)
Definition get_embeddings (x : list audio) (sr : Z) : M F (matrix F) :=
  embd_lst ← embed_each x sr;
  lift (np_concatenate embd_lst).

(** [FAD.calculate_embd_statistics_background] *)
Definition calculate_embd_statistics_background
    (background : list tensor) (save_path : string) : M F (background_value F) :=
  let save_path := path_join save_path "background_statistics.ptc" in
  found ← path_exists save_path;
  if (found : bool) then
    st ← torch_load save_path;
    mret (Statistics (fst st) (snd st))
  else
    x ← lift (map_outcome resample_squeezed background);
    embds_background ← get_embeddings x SAMPLE_RATE;
    if length embds_background =? 0 then mret (StatInt EMPTY)
    else
      let background_statistics := calculate_embd_statistics embds_background in
      _ ← torch_save background_statistics save_path;
      mret (Statistics (fst background_statistics) (snd background_statistics)).

(** [FAD.score], for an object whose [background] attribute is the
    first argument. *)
Definition score (background evaluation : list tensor) : M F (score_value F) :=
  x ← lift (map_outcome resample evaluation);
  embds_eval ← get_embeddings x SAMPLE_RATE;
  if length embds_eval =? 0 then mret (ScoreInt EMPTY)
  else
    b ← calculate_embd_statistics_background background ".tmp/";
    match b with
    | StatInt _ => lift (Raise (TypeError "cannot unpack non-iterable int object"))
    | Statistics mu_background sigma_background =>
        let '(mu_eval, sigma_eval) := calculate_embd_statistics embds_eval in
        fad_score ← lift (calculate_frechet_distance sqrtm
                            mu_background sigma_background mu_eval sigma_eval eps_default);
        mret (Distance fad_score)
    end.

End Orchestrator.

(** ** Square matrices and their transposes *)

(** [m.T] *)
Definition transpose {A} (d : A) (m : matrix A) : matrix A :=
  map (fun j => column d j m) (seq 0 (ncols m)).

(** An n x n array. *)
Definition is_square {A} (n : nat) (m : matrix A) : Prop :=
  length m = n /\ Forall (fun r => length r = n) m.

Definition entry {A} (d : A) (m : matrix A) (i j : nat) : A := nth j (nth i m []) d.

(** ** Collaborators and data for the examples *)

(** *** On binary64 numbers *)

Module Binary64.

Local Open Scope float_scope.

(** The square root of a diagonal matrix with non-negative entries, taken
    entry by entry: the matrix [sqrtm] returns for such an argument. *)
Definition sqrtm_entrywise (p : matrix float) : outcome float (carray float) :=
  Ok (RealArr (map (map PrimFloat.sqrt) p)).

Definition matrix_eqb (a b : matrix float) : bool :=
  bool_decide (length a = length b) &&
  forallb (fun '(r, q) =>
             bool_decide (length r = length q) &&
             forallb (fun '(x, y) => PrimFloat.eqb x y) (zip r q))
          (zip a b).

(** An oracle that answers [first] on the product [p0] and takes entrywise
    roots elsewhere. *)
Definition sqrtm_scripted (p0 : matrix float) (first : carray float)
    (p : matrix float) : outcome float (carray float) :=
  if matrix_eqb p p0 then Ok first else sqrtm_entrywise p.

Definition background_embeddings : matrix float := [[0; 0]; [2; 0]].
Definition evaluation_embeddings : matrix float := [[0; 2]; [2; 2]].

Definition example_mu1 : ndarray float := Arr1 [1; 0].
Definition example_mu2 : ndarray float := Arr1 [1; 2].
Definition example_sigma : ndarray float := Arr2 [[2; 0]; [0; 0]].

(** A root of complex dtype whose diagonal has an imaginary part of [1e-4]. *)
Definition small_residue : matrix (float * float) :=
  [[(2, 0.0001); (0, 0.5)]; [(0, 0); (0, 0)]].

(** The same with an imaginary part of [0.25] on the diagonal. *)
Definition large_residue : matrix (float * float) :=
  [[(2, 0.25); (0, 0.5)]; [(0, 0); (0, 0)]].

(** A sample stands for the frames the network extracts from it: resampling
    hands it on and the network returns it, one row per frame. *)
Definition resample_id (t : matrix float) : outcome float (matrix float) := Ok t.
Definition network (a : matrix float) (sr : Z) : outcome float (matrix float) := Ok a.

Definition background_set : list (matrix float) := [[[0; 0]]; [[2; 0]]].
Definition evaluation_set : list (matrix float) := [[[0; 2]]; [[2; 2]]].

(** Two samples too short to give a frame. *)
Definition silent_set : list (matrix float) := [[]; []].

(** A fresh checkout: no file, no directory. *)
Definition fresh_world : world float := World ∅ ∅ 0.

(** The same after [mkdir .tmp]. *)
Definition prepared_world : world float := World ∅ {[ ".tmp" ]} 0.

End Binary64.

(** ** Notions for the properties of the estimator and of the world *)

(** An n x d array. *)
Definition is_rect {A} (n d : nat) (m : matrix A) : Prop :=
  length m = n /\ Forall (fun r => length r = d) m.

Section CovarianceEntries.
Context {F : Type} `{Scalar F}.

Local Open Scope scalar_scope.

(** Variable [j] of the batch with its mean subtracted: row [j] of the
    array [X] of [np.cov] after [X -= avg[:, None]]. *)
Definition centered (x : matrix F) (j : nat) : list F :=
  map (fun r => nth j r f0 - nth j (mean_axis0 x) f0) x.

(** [np.true_divide(1, fact)] *)
Definition cov_factor (x : matrix F) : F :=
  f1 / of_Z (if (Z.of_nat (nrows x) - 1 <=? 0)%Z then 0%Z else (Z.of_nat (nrows x) - 1)%Z).

(** The array [c] of [np.cov] before [squeeze], entry by entry. *)
Definition cov_matrix (x : matrix F) : matrix F :=
  map (fun i => map (fun j => vdot (centered x i) (centered x j) * cov_factor x)
                    (seq 0 (ncols x)))
      (seq 0 (ncols x)).

End CovarianceEntries.

(** What a call may do to the world: directories stay, the count of runs
    does not decrease, and the files stay or gain the one file [p], new. *)
Definition world_grows {F} (p : string) (w w' : world F) : Prop :=
  dirs w' = dirs w
  /\ forward_calls w <= forward_calls w'
  /\ (files w' = files w
      \/ (files w !! p = None /\ exists st, files w' = <[p := st]> (files w))).

(** *** For the further properties *)

Module FurtherExamples.

Local Open Scope float_scope.

(** A network that raises on a sample without signal. *)
Definition picky_network (a : matrix float) (sr : Z) : outcome float (matrix float) :=
  match a with
  | [] => Raise (CollaboratorError "waveform too short")
  | _ => Ok a
  end.

(** A resampler that raises on a sample without signal. *)
Definition picky_resample (t : matrix float) : outcome float (matrix float) :=
  match t with
  | [] => Raise (CollaboratorError "sample without signal")
  | _ => Ok t
  end.

(** A checkout in which an earlier run left its statistics. *)
Definition cached_world : world float :=
  World {[ cache_file ".tmp/" := (Arr1 [1; 0], Arr2 [[2; 0]; [0; 0]]) ]} {[ ".tmp" ]} 0.

(** Variances handed over as a vector. *)
Definition variance_vector : ndarray float := Arr1 [2; 0].

(** A batch of three embeddings whose statistics are rounded. *)
Definition batch : matrix float := [[0.1; 0.2]; [0.3; 0.7]; [1.5; 2.5]].

End FurtherExamples.

(** * Properties of the distance calculator *)

Section FrechetFacts.
Context {F : Type} `{Scalar F}.
Variable sqrtm : matrix F -> outcome F (carray F).

Local Open Scope scalar_scope.

Lemma shape_eqb_true s t : shape_eqb s t = true <-> s = t.
Proof. unfold shape_eqb. apply bool_decide_eq_true. Qed.

Lemma shape_eqb_false s t : shape_eqb s t = false <-> s <> t.
Proof. unfold shape_eqb. apply bool_decide_eq_false. Qed.

Lemma atleast_1d_idemp (a : ndarray F) : atleast_1d (atleast_1d a) = atleast_1d a.
Proof. destruct a; reflexivity. Qed.

Lemma atleast_2d_idemp (a : ndarray F) : atleast_2d (Arr2 (atleast_2d a)) = atleast_2d a.
Proof. reflexivity. Qed.

(** The function seen after its two assertions have passed. *)
Lemma frechet_after_asserts mu1 sigma1 mu2 sigma2 eps :
  shape (atleast_1d mu1) = shape (atleast_1d mu2) ->
  mshape (atleast_2d sigma1) = mshape (atleast_2d sigma2) ->
  calculate_frechet_distance sqrtm mu1 sigma1 mu2 sigma2 eps =
    (diff ← arr_sub (atleast_1d mu1) (atleast_1d mu2);
     covmean ← covmean_of sqrtm (atleast_2d sigma1) (atleast_2d sigma2) eps;
     covmean ← discard_imag covmean;
     frechet_formula diff (atleast_2d sigma1) (atleast_2d sigma2) covmean).
Proof.
  intros Hmu Hsigma. unfold calculate_frechet_distance.
  apply shape_eqb_true in Hmu, Hsigma. rewrite Hmu, Hsigma. reflexivity.
Qed.

(** C6: when the promoted means differ in shape, or the promoted covariances
    do, [calculate_frechet_distance] raises the [AssertionError] of the
    failing assertion (the means are tested first); no distance is returned. *)
Theorem frechet_shape_mismatch mu1 sigma1 mu2 sigma2 eps :
  shape (atleast_1d mu1) <> shape (atleast_1d mu2) \/
  mshape (atleast_2d sigma1) <> mshape (atleast_2d sigma2) ->
  calculate_frechet_distance sqrtm mu1 sigma1 mu2 sigma2 eps =
    Raise (AssertionError
      (if shape_eqb (shape (atleast_1d mu1)) (shape (atleast_1d mu2))
       then "Training and test covariances have different dimensions"
       else "Training and test mean vectors have different lengths")).
Proof.
  intros Hne. unfold calculate_frechet_distance.
  destruct (shape_eqb (shape (atleast_1d mu1)) (shape (atleast_1d mu2))) eqn:Emu; simpl.
  - destruct Hne as [Hne | Hne].
    + apply shape_eqb_true in Emu. contradiction.
    + apply shape_eqb_false in Hne. rewrite Hne. reflexivity.
  - reflexivity.
Qed.

(** C10: the inputs are promoted before they are validated.  The distance
    of any inputs is the distance of their promotions; a rank-0 mean becomes
    a vector of one entry and a rank-0 covariance a 1 x 1 matrix; and scalar
    statistics pass both assertions, mixed with one-entry vectors or not:
    the call goes on to the square root of the 1 x 1 product. *)
Theorem frechet_promotes_scalars mu1 sigma1 mu2 sigma2 a s b t eps :
  calculate_frechet_distance sqrtm mu1 sigma1 mu2 sigma2 eps =
    calculate_frechet_distance sqrtm
      (atleast_1d mu1) (Arr2 (atleast_2d sigma1))
      (atleast_1d mu2) (Arr2 (atleast_2d sigma2)) eps
  /\ atleast_1d (Arr0 a) = Arr1 [a]
  /\ atleast_2d (Arr0 s) = [[s]]
  /\ calculate_frechet_distance sqrtm (Arr0 a) (Arr0 s) (Arr0 b) (Arr0 t) eps =
       (covmean ← covmean_of sqrtm [[s]] [[t]] eps;
        covmean ← discard_imag covmean;
        Ok (Arr0 ((a - b) * (a - b) + s + t - of_Z 2 * trace covmean)))
  /\ calculate_frechet_distance sqrtm (Arr0 a) (Arr0 s) (Arr1 [b]) (Arr2 [[t]]) eps =
       calculate_frechet_distance sqrtm (Arr0 a) (Arr0 s) (Arr0 b) (Arr0 t) eps.
Proof.
  split; [| split; [| split; [| split]]]; try reflexivity.
  unfold calculate_frechet_distance.
  rewrite !atleast_1d_idemp, !atleast_2d_idemp. reflexivity.
Qed.

(** A product of aligned operands is defined. *)
Lemma mdot_aligned (a b : matrix F) : ncols a = nrows b -> mdot a b = Ok (matmul a b).
Proof. intros Hab. unfold mdot. rewrite Hab, Nat.eqb_refl. reflexivity. Qed.

(** The offset covariances of square operands of one shape are aligned. *)
Lemma offset_product_aligned (sigma1 sigma2 : matrix F) eps :
  mshape sigma1 = mshape sigma2 ->
  ncols sigma1 = nrows sigma2 ->
  ncols (madd sigma1 (mscale (eye (nrows sigma1)) eps)) =
  nrows (madd sigma2 (mscale (eye (nrows sigma1)) eps)).
Proof.
  intros Hshape Hsq.
  assert (Hrows : nrows sigma1 = nrows sigma2) by (unfold mshape in Hshape; congruence).
  assert (Hoff : length (mscale (eye (nrows sigma1)) eps) = nrows sigma1)
    by (unfold mscale, eye; rewrite !length_map, length_seq; reflexivity).
  transitivity (nrows sigma1).
  - unfold madd, ncols at 1. unfold ncols in Hsq. rewrite <- Hrows in Hsq.
    destruct sigma1 as [| r sigma1]; [reflexivity |].
    unfold nrows in *. simpl length in *. simpl.
    rewrite length_zip_with. simpl length. rewrite !length_map, length_seq. lia.
  - unfold madd, nrows at 2. rewrite length_zip_with, Hoff. unfold nrows in *. lia.
Qed.

(** C1: for mean vectors of one length and square covariance matrices of
    one shape, let [c0] be what [sqrtm] returns for the product
    [sigma1.dot(sigma2)], and let [covmean] be [c0] when every entry of it
    is finite and otherwise what [sqrtm] returns for the product of
    [sigma1 + eps * I] and [sigma2 + eps * I].  When [covmean] has a real
    dtype, or a complex dtype with a diagonal whose imaginary part is close
    to zero, the call returns
    [dot(diff, diff) + trace(sigma1) + trace(sigma2) - 2 * trace(covmean.real)]
    with [diff = mu1 - mu2]. *)
Theorem frechet_distance_formula u v sigma1 sigma2 eps c0 covmean re :
  length u = length v ->
  mshape sigma1 = mshape sigma2 ->
  ncols sigma1 = nrows sigma2 ->
  sqrtm (matmul sigma1 sigma2) = Ok c0 ->
  (if isfinite_all c0 then Ok c0
   else sqrtm (matmul (madd sigma1 (mscale (eye (nrows sigma1)) eps))
                      (madd sigma2 (mscale (eye (nrows sigma1)) eps)))) = Ok covmean ->
  covmean = RealArr re \/
  (exists m, covmean = ComplexArr m /\ re = real_part m /\
             allclose_zero (diagonal f0 (imag_part m)) atol_1e_3 = true) ->
  calculate_frechet_distance sqrtm (Arr1 u) (Arr2 sigma1) (Arr1 v) (Arr2 sigma2) eps =
    let diff := zip_with fsub u v in
    Ok (Arr0 (vdot diff diff + trace sigma1 + trace sigma2 - of_Z 2 * trace re)).
Proof.
  intros Hlen Hshape Hsq Hc0 Hcov Hre.
  rewrite frechet_after_asserts by (simpl; congruence).
  simpl atleast_1d. simpl atleast_2d.
  assert (Hcm : covmean_of sqrtm sigma1 sigma2 eps = Ok covmean).
  { unfold covmean_of. rewrite (mdot_aligned _ _ Hsq). simpl. rewrite Hc0. simpl.
    rewrite (mdot_aligned _ _ (offset_product_aligned sigma1 sigma2 eps Hshape Hsq)).
    destruct (isfinite_all c0); simpl; exact Hcov. }
  rewrite Hcm. simpl.
  assert (Hd : discard_imag covmean = Ok re).
  { destruct Hre as [-> | (m & -> & -> & Hclose)]; simpl; [reflexivity |].
    rewrite Hclose. reflexivity. }
  rewrite Hd. simpl. unfold frechet_formula. simpl.
  rewrite length_zip_with, Nat.eqb_refl. reflexivity.
Qed.

Lemma forallb_false_ex {A} (P : A -> bool) (l : list A) :
  forallb P l = false <-> exists x, In x l /\ P x = false.
Proof.
  induction l as [| a l IH]; simpl.
  - split; [discriminate | intros (x & [] & _)].
  - rewrite andb_false_iff, IH. split.
    + intros [Ha | (x & Hx & HP)]; eauto.
    + intros (x & [-> | Hx] & HP); eauto.
Qed.

(** [np.isfinite(c).all()] fails exactly when some entry is not finite. *)
Lemma isfinite_all_false (c : carray F) :
  isfinite_all c = false <->
  match c with
  | RealArr m => exists r x, In r m /\ In x r /\ fisfinite x = false
  | ComplexArr m =>
      exists r z, In r m /\ In z r /\ (fisfinite (fst z) = false \/ fisfinite (snd z) = false)
  end.
Proof.
  destruct c as [m | m]; simpl; rewrite forallb_false_ex.
  - split.
    + intros (r & Hr & Hf). apply forallb_false_ex in Hf as (x & Hx & Hf). eauto.
    + intros (r & x & Hr & Hx & Hf). exists r. split; [assumption |].
      apply forallb_false_ex. eauto.
  - split.
    + intros (r & Hr & Hf). apply forallb_false_ex in Hf as (z & Hz & Hf).
      apply andb_false_iff in Hf. eauto 6.
    + intros (r & z & Hr & Hz & Hf). exists r. split; [assumption |].
      apply forallb_false_ex. exists z. split; [assumption |].
      apply andb_false_iff. assumption.
Qed.

(** When the first square root is finite it is the [covmean]. *)
Lemma covmean_of_finite sigma1 sigma2 eps p c0 :
  mdot sigma1 sigma2 = Ok p -> sqrtm p = Ok c0 -> isfinite_all c0 = true ->
  covmean_of sqrtm sigma1 sigma2 eps = Ok c0.
Proof.
  intros Hp Hc Hfin. unfold covmean_of. rewrite Hp. simpl. rewrite Hc. simpl.
  rewrite Hfin. reflexivity.
Qed.

Lemma covmean_of_retry sigma1 sigma2 eps p c0 :
  mdot sigma1 sigma2 = Ok p -> sqrtm p = Ok c0 -> isfinite_all c0 = false ->
  covmean_of sqrtm sigma1 sigma2 eps =
    (p' ← mdot (madd sigma1 (mscale (eye (nrows sigma1)) eps))
               (madd sigma2 (mscale (eye (nrows sigma1)) eps));
     sqrtm p').
Proof.
  intros Hp Hc Hfin. unfold covmean_of. rewrite Hp. simpl. rewrite Hc. simpl.
  rewrite Hfin. reflexivity.
Qed.

(** C4: when the square root [c0] of the product has an entry that is not
    finite, the distance is computed from one further square root, that of
    the product of [sigma1 + eps * I] and [sigma2 + eps * I]; this second
    root goes to the complex-residue validation and the final formula as it
    is, finite or not.  The answer of [sqrtm] on these two products is all
    the call reads of it: there is no third square root. *)
Theorem frechet_recovery_once mu1 sigma1 mu2 sigma2 eps p c0 :
  shape (atleast_1d mu1) = shape (atleast_1d mu2) ->
  mshape (atleast_2d sigma1) = mshape (atleast_2d sigma2) ->
  mdot (atleast_2d sigma1) (atleast_2d sigma2) = Ok p ->
  sqrtm p = Ok c0 ->
  isfinite_all c0 = false ->
  calculate_frechet_distance sqrtm mu1 sigma1 mu2 sigma2 eps =
    (diff ← arr_sub (atleast_1d mu1) (atleast_1d mu2);
     p' ← mdot (madd (atleast_2d sigma1) (mscale (eye (nrows (atleast_2d sigma1))) eps))
               (madd (atleast_2d sigma2) (mscale (eye (nrows (atleast_2d sigma1))) eps));
     covmean ← sqrtm p';
     covmean ← discard_imag covmean;
     frechet_formula diff (atleast_2d sigma1) (atleast_2d sigma2) covmean)
  /\ forall sqrtm' : matrix F -> outcome F (carray F),
       sqrtm' p = sqrtm p ->
       (forall p',
          mdot (madd (atleast_2d sigma1) (mscale (eye (nrows (atleast_2d sigma1))) eps))
               (madd (atleast_2d sigma2) (mscale (eye (nrows (atleast_2d sigma1))) eps)) = Ok p' ->
          sqrtm' p' = sqrtm p') ->
       calculate_frechet_distance sqrtm' mu1 sigma1 mu2 sigma2 eps =
       calculate_frechet_distance sqrtm mu1 sigma1 mu2 sigma2 eps.
Proof.
  intros Hmu Hsigma Hp Hc Hfin. split.
  - rewrite frechet_after_asserts by assumption.
    rewrite (covmean_of_retry _ _ _ _ _ Hp Hc Hfin).
    destruct (arr_sub _ _); simpl; [| reflexivity].
    destruct (mdot (madd _ _) _); simpl; reflexivity.
  - intros sqrtm' H0 H1.
    unfold calculate_frechet_distance, covmean_of.
    rewrite Hp. simpl. rewrite H0, Hc. simpl. rewrite Hfin. simpl.
    destruct (mdot (madd _ _) _) as [p' |] eqn:Ep'; simpl; [| reflexivity].
    rewrite (H1 p' eq_refl). reflexivity.
Qed.

(** When the diagonal is not close to zero the maximum is taken over an
    array that has entries. *)
Lemma amax_abs_reached (m : matrix F) atol :
  allclose_zero (diagonal f0 m) atol = false -> concat m <> [].
Proof.
  intros Hfar Hnil. unfold diagonal in Hfar.
  assert (Hrows : Forall (fun r => r = []) m).
  { clear Hfar. induction m as [| r m IH]; [constructor |].
    simpl in Hnil. apply app_eq_nil in Hnil as [-> Hnil]. constructor; auto. }
  assert (Hc : ncols m = 0%nat).
  { unfold ncols. destruct Hrows; [reflexivity | subst; reflexivity]. }
  rewrite Hc, Nat.min_0_r in Hfar. discriminate.
Qed.

(** C5: when [covmean] has a complex dtype and the imaginary part of its
    diagonal is not within [1e-3] of zero, the call raises the error that
    carries the largest absolute imaginary part found in [covmean];
    otherwise the imaginary part is dropped and the formula is evaluated
    on the real part. *)
Theorem frechet_complex_residue mu1 sigma1 mu2 sigma2 eps diff m :
  shape (atleast_1d mu1) = shape (atleast_1d mu2) ->
  mshape (atleast_2d sigma1) = mshape (atleast_2d sigma2) ->
  arr_sub (atleast_1d mu1) (atleast_1d mu2) = Ok diff ->
  covmean_of sqrtm (atleast_2d sigma1) (atleast_2d sigma2) eps = Ok (ComplexArr m) ->
  calculate_frechet_distance sqrtm mu1 sigma1 mu2 sigma2 eps =
    if allclose_zero (diagonal f0 (imag_part m)) atol_1e_3
    then frechet_formula diff (atleast_2d sigma1) (atleast_2d sigma2) (real_part m)
    else Raise (ImaginaryComponent (amax_abs (imag_part m))).
Proof.
  intros Hmu Hsigma Hdiff Hcov.
  rewrite frechet_after_asserts by assumption.
  rewrite Hdiff, Hcov. simpl.
  destruct (allclose_zero _ _); reflexivity.
Qed.

End FrechetFacts.

(** * The calculator on binary64 numbers *)

Section Binary64Facts.
Import Binary64.
Local Open Scope float_scope.

(** C2: the estimator maps the batches [[0,0],[2,0]] and [[0,2],[2,2]] to
    the means [1,0] and [1,2] and, both, to the covariance [[2,0],[0,0]];
    with [sqrtm] returning [[2,0],[0,0]] on the product [[4,0],[0,0]] the
    distance of these statistics is 4, in binary64 arithmetic. *)
Theorem end_to_end_example (sqrtm : matrix float -> outcome float (carray float)) :
  sqrtm [[4; 0]; [0; 0]] = Ok (RealArr [[2; 0]; [0; 0]]) ->
  calculate_embd_statistics background_embeddings = (Arr1 [1; 0], Arr2 [[2; 0]; [0; 0]])
  /\ calculate_embd_statistics evaluation_embeddings = (Arr1 [1; 2], Arr2 [[2; 0]; [0; 0]])
  /\ calculate_frechet_distance sqrtm
       (Arr1 [1; 0]) (Arr2 [[2; 0]; [0; 0]]) (Arr1 [1; 2]) (Arr2 [[2; 0]; [0; 0]])
       eps_default = Ok (Arr0 4).
Proof.
  intros Hroot. split; [| split].
  - vm_compute. reflexivity.
  - vm_compute. reflexivity.
  - rewrite frechet_after_asserts by reflexivity.
    simpl atleast_1d. simpl atleast_2d.
    rewrite (covmean_of_finite sqrtm _ _ _ [[4; 0]; [0; 0]] (RealArr [[2; 0]; [0; 0]])).
    + vm_compute. reflexivity.
    + vm_compute. reflexivity.
    + exact Hroot.
    + vm_compute. reflexivity.
Qed.

Lemma end_to_end_example_witness :
  calculate_embd_statistics background_embeddings = (Arr1 [1; 0], Arr2 [[2; 0]; [0; 0]])
  /\ calculate_embd_statistics evaluation_embeddings = (Arr1 [1; 2], Arr2 [[2; 0]; [0; 0]])
  /\ calculate_frechet_distance sqrtm_entrywise
       (Arr1 [1; 0]) (Arr2 [[2; 0]; [0; 0]]) (Arr1 [1; 2]) (Arr2 [[2; 0]; [0; 0]])
       eps_default = Ok (Arr0 4).
Proof.
  apply (end_to_end_example sqrtm_entrywise). vm_compute. reflexivity.
Defined.

Lemma frechet_shape_mismatch_witness :
  calculate_frechet_distance sqrtm_entrywise
    example_mu1 example_sigma (Arr1 [1; 2; 3]) example_sigma eps_default =
  Raise (AssertionError "Training and test mean vectors have different lengths").
Proof.
  apply (frechet_shape_mismatch sqrtm_entrywise
           example_mu1 example_sigma (Arr1 [1; 2; 3]) example_sigma eps_default).
  left. vm_compute. discriminate.
Defined.

Lemma frechet_distance_formula_witness :
  calculate_frechet_distance
    (sqrtm_scripted [[4; 0]; [0; 0]] (ComplexArr small_residue))
    (Arr1 [1; 0]) (Arr2 [[2; 0]; [0; 0]]) (Arr1 [1; 2]) (Arr2 [[2; 0]; [0; 0]])
    eps_default = Ok (Arr0 4).
Proof.
  rewrite (frechet_distance_formula
             (sqrtm_scripted [[4; 0]; [0; 0]] (ComplexArr small_residue))
             [1; 0] [1; 2] [[2; 0]; [0; 0]] [[2; 0]; [0; 0]] eps_default
             (ComplexArr small_residue) (ComplexArr small_residue)
             (real_part small_residue)).
  - vm_compute. reflexivity.
  - reflexivity.
  - reflexivity.
  - reflexivity.
  - vm_compute. reflexivity.
  - vm_compute. reflexivity.
  - right. exists small_residue. split; [reflexivity |]. split; [reflexivity |].
    vm_compute. reflexivity.
Defined.

Lemma frechet_recovery_once_witness :
  calculate_frechet_distance
    (sqrtm_scripted [[4; 0]; [0; 0]] (RealArr [[nan; 0]; [0; 0]]))
    example_mu1 example_sigma example_mu2 example_sigma eps_default =
  Ok (Arr0 3.9999959999999994).
Proof.
  destruct (frechet_recovery_once
              (sqrtm_scripted [[4; 0]; [0; 0]] (RealArr [[nan; 0]; [0; 0]]))
              example_mu1 example_sigma example_mu2 example_sigma eps_default
              [[4; 0]; [0; 0]] (RealArr [[nan; 0]; [0; 0]])) as [Hretry _];
    [.. | rewrite Hretry]; vm_compute; reflexivity.
Defined.

(** A second root that is not finite either is used as it is. *)
Example recovery_result_unchecked :
  calculate_frechet_distance (fun _ => Ok (RealArr [[nan; 0]; [0; 0]]))
    example_mu1 example_sigma example_mu2 example_sigma eps_default = Ok (Arr0 nan).
Proof. vm_compute. reflexivity. Qed.

Lemma frechet_complex_residue_witness :
  calculate_frechet_distance
    (sqrtm_scripted [[4; 0]; [0; 0]] (ComplexArr large_residue))
    example_mu1 example_sigma example_mu2 example_sigma eps_default =
  Raise (ImaginaryComponent 0.5).
Proof.
  rewrite (frechet_complex_residue
             (sqrtm_scripted [[4; 0]; [0; 0]] (ComplexArr large_residue))
             example_mu1 example_sigma example_mu2 example_sigma eps_default
             (Arr1 [0; -2]) large_residue); vm_compute; reflexivity.
Defined.

(** Exchanging the two Gaussians exchanges the two traces in the final
    sum, and binary64 addition rounds after every term: on these diagonal
    covariances the two orders of the arguments give neighbouring binary64
    numbers, 2^52 and 2^52 + 2. *)
Example argument_order_rounding :
  calculate_frechet_distance sqrtm_entrywise
    (Arr1 [67108864; 1]) (Arr2 [[1.5; 0]; [0; 0]])
    (Arr1 [0; 0]) (Arr2 [[0.5; 0]; [0; 0]]) eps_default = Ok (Arr0 4503599627370496)
  /\ calculate_frechet_distance sqrtm_entrywise
       (Arr1 [0; 0]) (Arr2 [[0.5; 0]; [0; 0]])
       (Arr1 [67108864; 1]) (Arr2 [[1.5; 0]; [0; 0]]) eps_default =
     Ok (Arr0 4503599627370498).
Proof. split; vm_compute; reflexivity. Qed.

(** The tolerances and the default offset are the binary64 numbers the
    literals [1e-3], [1e-5] and [1e-6] denote. *)
Example tolerance_literals :
  atol_1e_3 = 0.001 /\ rtol_default = 0.00001 /\ eps_default = 0.000001.
Proof. vm_compute. repeat split. Qed.

End Binary64Facts.

(** * Properties of the collector, the cache and the orchestrator *)

Section OrchestratorFacts.
Context {F : Type} `{Scalar F}.
Context {tensor audio : Type}.
Variable resample_squeezed : tensor -> outcome F audio.
Variable resample : tensor -> outcome F audio.
Variable model_forward : audio -> Z -> outcome F (matrix F).
Variable sqrtm : matrix F -> outcome F (carray F).

Lemma ran_0 (w : world F) : ran 0 w = w.
Proof. destruct w. unfold ran. simpl. f_equal. lia. Qed.

Lemma embed_each_spec x sr w :
  embed_each model_forward x sr w =
    (map_outcome (fun a => model_forward a sr) x, ran (forward_runs model_forward x sr) w).
Proof.
  revert w. induction x as [| a r IH]; intros w; simpl.
  - rewrite ran_0. reflexivity.
  - unfold mbind at 1. unfold M_bind, forward.
    destruct (model_forward a sr) as [embd | e]; simpl.
    + unfold mbind at 1. unfold M_bind. rewrite IH.
      destruct (map_outcome _ r); simpl; unfold ran; simpl;
        repeat f_equal; lia.
    + unfold ran. repeat f_equal. lia.
Qed.

Lemma get_embeddings_spec x sr w :
  get_embeddings model_forward x sr w =
    (embd_lst ← map_outcome (fun a => model_forward a sr) x; np_concatenate embd_lst,
     ran (forward_runs model_forward x sr) w).
Proof.
  unfold get_embeddings. unfold mbind at 1. unfold M_bind.
  rewrite embed_each_spec. destruct (map_outcome _ x); reflexivity.
Qed.

(** C8: on an empty sequence of waveforms [get_embeddings] runs the network
    zero times and then raises the [ValueError] of [np.concatenate]; it
    returns no batch. *)
Theorem get_embeddings_empty sr w :
  get_embeddings model_forward [] sr w =
    (Raise (ValueError "need at least one array to concatenate"), w).
Proof. reflexivity. Qed.

Lemma map_outcome_length {A B} (f : A -> outcome F B) (l : list A) (r : list B) :
  map_outcome f l = Ok r -> length r = length l.
Proof.
  revert r. induction l as [| a l IH]; intros r; simpl.
  - intros [= <-]. reflexivity.
  - destruct (f a); simpl; [| discriminate].
    destruct (map_outcome f l); simpl; [| discriminate].
    intros [= <-]. simpl. f_equal. apply IH. reflexivity.
Qed.

Lemma forward_runs_ok x sr l :
  map_outcome (fun a => model_forward a sr) x = Ok l -> forward_runs model_forward x sr = length x.
Proof.
  revert l. induction x as [| a r IH]; intros l; simpl; [reflexivity |].
  destruct (model_forward a sr); simpl; [| discriminate].
  destruct (map_outcome _ r) eqn:E; simpl; [| discriminate].
  intros _. f_equal. eapply IH. reflexivity.
Qed.

Lemma get_embeddings_ok x sr w l :
  map_outcome (fun a => model_forward a sr) x = Ok l -> l <> [] ->
  get_embeddings model_forward x sr w = (Ok (concat l), ran (length x) w).
Proof.
  intros Hl Hne. rewrite get_embeddings_spec, Hl, (forward_runs_ok _ _ _ Hl).
  destruct l; [contradiction | reflexivity].
Qed.

(** A statistics file at the location is loaded; the world is left as it
    was, so the network is not run. *)
Lemma background_cached background save_path w st :
  files w !! cache_file save_path = Some st ->
  calculate_embd_statistics_background resample_squeezed model_forward
    background save_path w = (Ok (Statistics (fst st) (snd st)), w).
Proof.
  intros Hfile. unfold calculate_embd_statistics_background.
  fold (cache_file save_path).
  unfold mbind at 1. unfold M_bind, path_exists.
  rewrite Hfile. rewrite bool_decide_eq_true_2 by eauto. simpl.
  unfold mbind, M_bind, torch_load. rewrite Hfile. reflexivity.
Qed.

(** With nothing at the location, the batch is computed first. *)
Lemma background_computed background save_path w x l :
  files w !! cache_file save_path = None ->
  cache_file save_path ∉ dirs w ->
  map_outcome resample_squeezed background = Ok x ->
  map_outcome (fun a => model_forward a SAMPLE_RATE) x = Ok l ->
  l <> [] ->
  calculate_embd_statistics_background resample_squeezed model_forward
    background save_path w =
  if length (concat l) =? 0 then (Ok (StatInt EMPTY), ran (length background) w)
  else
    (_ ← torch_save (calculate_embd_statistics (concat l)) (cache_file save_path);
     mret (Statistics (fst (calculate_embd_statistics (concat l)))
                      (snd (calculate_embd_statistics (concat l)))))
      (ran (length background) w).
Proof.
  intros Hfile Hdir Hx Hl Hne. unfold calculate_embd_statistics_background.
  fold (cache_file save_path).
  unfold mbind at 1. unfold M_bind, path_exists.
  rewrite Hfile.
  rewrite bool_decide_eq_false_2 by (intros [? ?]; discriminate).
  rewrite bool_decide_eq_false_2 by assumption. simpl.
  unfold mbind at 1. unfold M_bind, lift. rewrite Hx.
  unfold mbind at 1. unfold M_bind.
  rewrite (get_embeddings_ok _ _ _ _ Hl Hne).
  rewrite (map_outcome_length _ _ _ Hx).
  destruct (length (concat l) =? 0); reflexivity.
Qed.

Lemma concat_nonempty {A} (l : list (list A)) : concat l <> [] -> l <> [].
Proof. intros Hc ->. apply Hc. reflexivity. Qed.

Lemma length_eqb_0 {A} (l : list A) : l <> [] -> (length l =? 0) = false.
Proof. destruct l; [contradiction | reflexivity]. Qed.

(** Without a file and without the directory of the location the batch is
    computed and [torch.save] raises: nothing is persisted. *)
Lemma background_no_directory background save_path w x l :
  files w !! cache_file save_path = None ->
  cache_file save_path ∉ dirs w ->
  dirname (cache_file save_path) <> EmptyString ->
  dirname (cache_file save_path) ∉ dirs w ->
  map_outcome resample_squeezed background = Ok x ->
  map_outcome (fun a => model_forward a SAMPLE_RATE) x = Ok l ->
  concat l <> [] ->
  calculate_embd_statistics_background resample_squeezed model_forward
    background save_path w =
  (Raise (RuntimeError "Parent directory does not exist"), ran (length background) w).
Proof.
  intros Hfile Hnd Hcwd Hdir Hx Hl Hne.
  rewrite (background_computed _ _ _ _ _ Hfile Hnd Hx Hl (concat_nonempty _ Hne)).
  rewrite (length_eqb_0 _ Hne).
  unfold mbind, M_bind, torch_save. simpl.
  rewrite !bool_decide_eq_false_2 by assumption. reflexivity.
Qed.

(** Without a file at the location an empty background sequence reaches
    [np.concatenate] with no array. *)
Lemma background_empty_list save_path w :
  files w !! cache_file save_path = None ->
  cache_file save_path ∉ dirs w ->
  calculate_embd_statistics_background resample_squeezed model_forward
    [] save_path w =
  (Raise (ValueError "need at least one array to concatenate"), w).
Proof.
  intros Hfile Hnd. unfold calculate_embd_statistics_background.
  fold (cache_file save_path).
  unfold mbind at 1. unfold M_bind, path_exists.
  rewrite Hfile.
  rewrite bool_decide_eq_false_2 by (intros [? ?]; discriminate).
  rewrite bool_decide_eq_false_2 by assumption. reflexivity.
Qed.

(** C7, as the code has it.  When nothing exists at the location, its
    directory exists and the background set yields a batch with at least
    one embedding, the call runs the network once per sample, writes the
    statistics of the batch at the location and returns them.  Whenever a
    statistics file exists at the location, the call returns its content
    and leaves the world as it was: the network is not run.  Hence a second
    call, made after the first, returns the same statistics with no further
    run of the network. *)
Theorem background_statistics_cache background save_path w x l :
  files w !! cache_file save_path = None ->
  cache_file save_path ∉ dirs w ->
  dirname (cache_file save_path) = EmptyString \/ dirname (cache_file save_path) ∈ dirs w ->
  map_outcome resample_squeezed background = Ok x ->
  map_outcome (fun a => model_forward a SAMPLE_RATE) x = Ok l ->
  concat l <> [] ->
  exists st w',
    st = calculate_embd_statistics (concat l)
    /\ w' = World (<[cache_file save_path := st]> (files w)) (dirs w)
                  (forward_calls w + length background)
    /\ calculate_embd_statistics_background resample_squeezed model_forward
         background save_path w = (Ok (Statistics (fst st) (snd st)), w')
    /\ (forall background2 w2 st2,
          files w2 !! cache_file save_path = Some st2 ->
          calculate_embd_statistics_background resample_squeezed model_forward
            background2 save_path w2 = (Ok (Statistics (fst st2) (snd st2)), w2))
    /\ calculate_embd_statistics_background resample_squeezed model_forward
         background save_path w' = (Ok (Statistics (fst st) (snd st)), w').
Proof.
  intros Hfile Hnd Hdir Hx Hl Hne.
  eexists. eexists. split; [reflexivity |]. split; [reflexivity |].
  split; [| split].
  - rewrite (background_computed _ _ _ _ _ Hfile Hnd Hx Hl (concat_nonempty _ Hne)).
    rewrite (length_eqb_0 _ Hne).
    unfold mbind, M_bind, torch_save. simpl.
    assert (Hok : bool_decide (dirname (cache_file save_path) = EmptyString)
                  || bool_decide (dirname (cache_file save_path) ∈ dirs w) = true).
    { apply orb_true_iff. destruct Hdir as [Hd | Hd]; [left | right];
        apply bool_decide_eq_true_2; assumption. }
    rewrite Hok. rewrite bool_decide_eq_false_2 by assumption. reflexivity.
  - intros background2 w2 st2 H2. apply background_cached. assumption.
  - apply background_cached. simpl. apply lookup_insert_eq.
Qed.

(** C3, as the code has it.  [score] on an empty evaluation sequence raises
    the [ValueError] of [np.concatenate] before its emptiness test is
    reached.  With nothing cached, an empty background sequence raises the
    same error once the evaluation batch has been computed; and a
    background set whose embeddings have no frame makes
    [calculate_embd_statistics_background] return -1, which [score] fails
    to unpack.  None of the three calls returns the value -1. *)
Theorem score_empty_sets background evaluation w x l xb lb :
  files w !! cache_file ".tmp/" = None ->
  cache_file ".tmp/" ∉ dirs w ->
  map_outcome resample evaluation = Ok x ->
  map_outcome (fun a => model_forward a SAMPLE_RATE) x = Ok l ->
  concat l <> [] ->
  map_outcome resample_squeezed background = Ok xb ->
  map_outcome (fun a => model_forward a SAMPLE_RATE) xb = Ok lb ->
  lb <> [] ->
  concat lb = [] ->
  score resample_squeezed resample model_forward sqrtm background [] w =
    (Raise (ValueError "need at least one array to concatenate"), w)
  /\ score resample_squeezed resample model_forward sqrtm [] evaluation w =
    (Raise (ValueError "need at least one array to concatenate"),
     ran (length evaluation) w)
  /\ score resample_squeezed resample model_forward sqrtm background evaluation w =
    (Raise (TypeError "cannot unpack non-iterable int object"),
     ran (length background) (ran (length evaluation) w)).
Proof.
  intros Hfile Hnd Hx Hl Hne Hxb Hlb Hlbne Hempty.
  split; [reflexivity |].
  assert (Heval : forall bg,
    score resample_squeezed resample model_forward sqrtm bg evaluation w =
    (b ← calculate_embd_statistics_background resample_squeezed model_forward bg ".tmp/";
     match b with
     | StatInt _ => lift (Raise (TypeError "cannot unpack non-iterable int object"))
     | Statistics mu_background sigma_background =>
         let '(mu_eval, sigma_eval) := calculate_embd_statistics (concat l) in
         fad_score ← lift (calculate_frechet_distance sqrtm
                             mu_background sigma_background mu_eval sigma_eval eps_default);
         mret (Distance fad_score)
     end) (ran (length evaluation) w)).
  { intros bg. unfold score.
    unfold mbind at 1. unfold M_bind, lift. rewrite Hx.
    unfold mbind at 1. unfold M_bind.
    rewrite (get_embeddings_ok _ _ _ _ Hl (concat_nonempty _ Hne)).
    rewrite (map_outcome_length _ _ _ Hx), (length_eqb_0 _ Hne). reflexivity. }
  split.
  - rewrite Heval.
    unfold mbind at 1. unfold M_bind.
    rewrite background_empty_list by assumption. reflexivity.
  - rewrite Heval.
    unfold mbind at 1. unfold M_bind.
    rewrite (background_computed background ".tmp/" _ xb lb); try assumption.
    rewrite Hempty. reflexivity.
Qed.

End OrchestratorFacts.

(** * A run of the orchestrator on binary64 numbers *)

Section ScenarioFacts.
Import Binary64.
Local Open Scope float_scope.

Lemma background_statistics_cache_witness :
  exists st w',
    st = calculate_embd_statistics (concat background_set)
    /\ w' = World (<[cache_file ".tmp/" := st]> (files prepared_world))
                  (dirs prepared_world)
                  (forward_calls prepared_world + length background_set)
    /\ calculate_embd_statistics_background resample_id network
         background_set ".tmp/" prepared_world = (Ok (Statistics (fst st) (snd st)), w')
    /\ (forall background2 w2 st2,
          files w2 !! cache_file ".tmp/" = Some st2 ->
          calculate_embd_statistics_background resample_id network
            background2 ".tmp/" w2 = (Ok (Statistics (fst st2) (snd st2)), w2))
    /\ calculate_embd_statistics_background resample_id network
         background_set ".tmp/" w' = (Ok (Statistics (fst st) (snd st)), w').
Proof.
  apply (background_statistics_cache resample_id network
           background_set ".tmp/" prepared_world background_set background_set).
  - reflexivity.
  - intros Hin. unfold prepared_world, dirs in Hin.
    apply elem_of_singleton in Hin. discriminate.
  - right. unfold prepared_world, dirs. apply elem_of_singleton. reflexivity.
  - reflexivity.
  - reflexivity.
  - discriminate.
Defined.

(** The claim of C7 fails on a fresh checkout: nothing is cached, the
    network is run on both samples, and the call ends in the error of
    [torch.save] with no file written and no directory made. *)
Lemma cache_directory_not_created :
  files fresh_world !! cache_file ".tmp/" = None
  /\ calculate_embd_statistics_background resample_id network
       background_set ".tmp/" fresh_world =
     (Raise (RuntimeError "Parent directory does not exist"), World ∅ ∅ 2).
Proof.
  split; [reflexivity |].
  rewrite (background_no_directory resample_id network
             background_set ".tmp/" fresh_world background_set background_set).
  - reflexivity.
  - reflexivity.
  - apply not_elem_of_empty.
  - discriminate.
  - apply not_elem_of_empty.
  - reflexivity.
  - reflexivity.
  - discriminate.
Qed.

Lemma score_empty_sets_witness :
  score resample_id resample_id network sqrtm_entrywise silent_set [] prepared_world =
    (Raise (ValueError "need at least one array to concatenate"), prepared_world)
  /\ score resample_id resample_id network sqrtm_entrywise [] evaluation_set prepared_world =
    (Raise (ValueError "need at least one array to concatenate"),
     ran (length evaluation_set) prepared_world)
  /\ score resample_id resample_id network sqrtm_entrywise
       silent_set evaluation_set prepared_world =
    (Raise (TypeError "cannot unpack non-iterable int object"),
     ran (length silent_set) (ran (length evaluation_set) prepared_world)).
Proof.
  apply (score_empty_sets resample_id resample_id network sqrtm_entrywise
           silent_set evaluation_set prepared_world
           evaluation_set evaluation_set silent_set silent_set).
  - reflexivity.
  - intros Hin. unfold prepared_world, dirs in Hin.
    apply elem_of_singleton in Hin. discriminate.
  - reflexivity.
  - reflexivity.
  - discriminate.
  - reflexivity.
  - reflexivity.
  - discriminate.
  - reflexivity.
Defined.

(** The sentinel is returned when the evaluation samples give no frame. *)
Example score_silent_evaluation :
  score resample_id resample_id network sqrtm_entrywise
    background_set silent_set prepared_world =
  (Ok (ScoreInt EMPTY), ran 2 prepared_world).
Proof. vm_compute. reflexivity. Qed.

(** With the directory in place the end-to-end example goes through. *)
Example score_example :
  fst (score resample_id resample_id network sqrtm_entrywise
         background_set evaluation_set prepared_world) = Ok (Distance (Arr0 4)).
Proof. vm_compute. reflexivity. Qed.

End ScenarioFacts.

(** * Square matrices and their transposes *)

Section MatrixFacts.
Context {A : Type} (d : A).

Lemma nth_map_seq {B} (f : nat -> B) n i (b : B) :
  i < n -> nth i (map f (seq 0 n)) b = f i.
Proof.
  intros Hi. rewrite (nth_indep _ b (f 0)) by (rewrite length_map, length_seq; lia).
  rewrite map_nth, seq_nth by lia. reflexivity.
Qed.

Lemma nth_column m i j : nth j (column d i m) d = nth i (nth j m []) d.
Proof.
  unfold column.
  rewrite <- (map_nth (fun r => nth i r d) m [] j).
  f_equal. destruct i; reflexivity.
Qed.

Lemma square_row n (m : matrix A) i :
  is_square n m -> i < n -> length (nth i m []) = n.
Proof.
  intros [Hlen Hrows] Hi. rewrite List.Forall_forall in Hrows.
  apply Hrows, nth_In. lia.
Qed.

Lemma square_ncols n (m : matrix A) : is_square n m -> ncols m = n.
Proof.
  intros [Hlen Hrows]. unfold ncols. destruct m as [| r m]; simpl in *.
  - assumption.
  - inversion Hrows. assumption.
Qed.

Lemma matrix_ext n (a b : matrix A) :
  is_square n a -> is_square n b ->
  (forall i j, i < n -> j < n -> entry d a i j = entry d b i j) -> a = b.
Proof.
  intros Ha Hb Hentries.
  assert (Hla : length a = n) by apply Ha.
  assert (Hlb : length b = n) by apply Hb.
  apply (nth_ext a b [] []); [congruence |].
  intros i Hi. rewrite Hla in Hi.
  apply (nth_ext _ _ d d).
  - rewrite (square_row n a i Ha Hi), (square_row n b i Hb Hi). reflexivity.
  - intros j Hj. rewrite (square_row n a i Ha Hi) in Hj. apply Hentries; assumption.
Qed.

Lemma transpose_square n (m : matrix A) : is_square n m -> is_square n (transpose d m).
Proof.
  intros Hm. unfold transpose. rewrite (square_ncols n m Hm). split.
  - rewrite length_map, length_seq. reflexivity.
  - apply List.Forall_forall. intros r Hr. apply in_map_iff in Hr as (j & <- & _).
    unfold column. rewrite length_map. apply Hm.
Qed.

Lemma entry_transpose n (m : matrix A) i j :
  is_square n m -> i < n -> j < n -> entry d (transpose d m) i j = entry d m j i.
Proof.
  intros Hm Hi Hj. unfold entry, transpose.
  rewrite (square_ncols n m Hm), nth_map_seq by assumption.
  apply nth_column.
Qed.

Lemma nth_zip_with {B C} (f : A -> B -> C) (u : list A) (v : list B) i da db dc :
  i < length u -> i < length v ->
  nth i (zip_with f u v) dc = f (nth i u da) (nth i v db).
Proof.
  revert v i. induction u as [| a u IH]; intros [| b v] i Hu Hv; simpl in *; try lia.
  destruct i; [reflexivity |]. apply IH; lia.
Qed.

End MatrixFacts.

Lemma zip_with_comm {A B} (f : A -> A -> B) (u v : list A) :
  (forall a b, f a b = f b a) -> zip_with f u v = zip_with f v u.
Proof.
  intros Hcomm. revert v. induction u as [| a u IH]; intros [| b v]; simpl; try reflexivity.
  rewrite Hcomm, IH. reflexivity.
Qed.

Section SquareFacts.
Context {F : Type} `{Scalar F}.

Local Open Scope scalar_scope.

Lemma offset_square n (eps : F) : is_square n (mscale (eye n) eps).
Proof.
  unfold mscale, eye. split.
  - rewrite !length_map, length_seq. reflexivity.
  - apply List.Forall_forall. intros r Hr.
    apply in_map_iff in Hr as (q & <- & Hq). apply in_map_iff in Hq as (i & <- & _).
    rewrite !length_map, length_seq. reflexivity.
Qed.

Lemma madd_square n (a b : matrix F) :
  is_square n a -> is_square n b -> is_square n (madd a b).
Proof.
  intros Ha Hb. unfold madd. split.
  - rewrite length_zip_with. destruct Ha, Hb; lia.
  - apply List.Forall_forall. intros r Hr.
    apply (In_nth _ _ []) in Hr as (i & Hi & <-).
    rewrite length_zip_with in Hi.
    assert (Hin : i < n) by (destruct Ha, Hb; lia).
    rewrite (nth_zip_with (zip_with fadd) a b i [] [] [])
      by (destruct Ha, Hb; lia).
    rewrite length_zip_with, (square_row n a i Ha Hin), (square_row n b i Hb Hin). lia.
Qed.

End SquareFacts.

(** * Properties of the statistics estimator *)

Section EstimatorFacts.
Context {F : Type} `{Scalar F}.

Local Open Scope scalar_scope.

Lemma rect_ncols {A} n d (x : matrix A) : is_rect n d x -> 1 <= n -> ncols x = d.
Proof.
  intros [Hlen Hrows] Hn. unfold ncols. destruct x as [| r x]; simpl in *; [lia |].
  inversion Hrows. assumption.
Qed.

Lemma length_mean_axis0 (x : matrix F) : length (mean_axis0 x) = ncols x.
Proof. unfold mean_axis0. rewrite length_map, length_seq. reflexivity. Qed.

(** [np.cov] returns the squeezed [cov_matrix].  (With a single row,
    numpy 1 does not transpose the batch; the theorems below ask for two
    rows, where every numpy agrees.) *)
Lemma cov_eq (x : matrix F) : ncols x <> 0 -> cov x = squeeze (cov_matrix x).
Proof.
  intros Hd. unfold cov. apply Nat.eqb_neq in Hd. rewrite Hd.
  f_equal. unfold mscale, cov_matrix. rewrite !map_map.
  apply map_ext. intros i. rewrite !map_map. reflexivity.
Qed.

Lemma cov_matrix_square (x : matrix F) : is_square (ncols x) (cov_matrix x).
Proof.
  unfold cov_matrix. split.
  - rewrite length_map, length_seq. reflexivity.
  - apply List.Forall_forall. intros r Hr. apply in_map_iff in Hr as (i & <- & _).
    rewrite length_map, length_seq. reflexivity.
Qed.

(** Promotion undoes the squeeze of a square array. *)
Lemma atleast_2d_squeeze d (c : matrix F) :
  is_square d c -> 1 <= d -> atleast_2d (squeeze c) = c.
Proof.
  intros [Hlen Hrows] Hd.
  destruct c as [| r1 [| r2 c]]; simpl in Hlen.
  - lia.
  - subst d. inversion Hrows as [| ? ? Hr1 _]; subst.
    destruct r1 as [| y [| ? ?]]; simpl in Hr1; try discriminate. reflexivity.
  - inversion Hrows as [| ? ? Hr1 _]; subst.
    unfold squeeze, ncols. simpl hd.
    destruct r1 as [| y [| z r1]]; simpl in Hr1; try lia; reflexivity.
Qed.

Lemma atleast_2d_cov (x : matrix F) :
  ncols x <> 0 -> atleast_2d (cov x) = cov_matrix x.
Proof.
  intros Hd. rewrite (cov_eq x Hd).
  apply (atleast_2d_squeeze (ncols x)); [apply cov_matrix_square | lia].
Qed.

Lemma rect_square_cov n d (x : matrix F) :
  is_rect n d x -> 1 <= n -> 1 <= d ->
  atleast_2d (cov x) = cov_matrix x /\ is_square d (cov_matrix x).
Proof.
  intros Hx Hn Hd. pose proof (rect_ncols n d x Hx Hn) as Hc. split.
  - apply atleast_2d_cov. lia.
  - rewrite <- Hc. apply cov_matrix_square.
Qed.

(** X3: the statistics the estimator computes from two batches of one
    width d >= 1, each with at least two rows, have a d x d covariance once
    promoted, pass both assertions of [calculate_frechet_distance] and
    make every product in it well formed: the call can only fail where
    [sqrtm] raises or the complex residue is too large. *)
Theorem estimator_feeds_distance
    (sqrtm : matrix F -> outcome F (carray F)) n1 n2 d (x1 x2 : matrix F) eps :
  is_rect n1 d x1 -> is_rect n2 d x2 -> 2 <= n1 -> 2 <= n2 -> 1 <= d ->
  let s1 := atleast_2d (snd (calculate_embd_statistics x1)) in
  let s2 := atleast_2d (snd (calculate_embd_statistics x2)) in
  let offset := mscale (eye d) eps in
  let diff := zip_with fsub (mean_axis0 x1) (mean_axis0 x2) in
  is_square d s1 /\ is_square d s2
  /\ calculate_frechet_distance sqrtm
       (fst (calculate_embd_statistics x1)) (snd (calculate_embd_statistics x1))
       (fst (calculate_embd_statistics x2)) (snd (calculate_embd_statistics x2)) eps =
     (c0 ← sqrtm (matmul s1 s2);
      covmean ← (if isfinite_all c0 then Ok c0
                 else sqrtm (matmul (madd s1 offset) (madd s2 offset)));
      re ← discard_imag covmean;
      Ok (Arr0 (vdot diff diff + trace s1 + trace s2 - of_Z 2 * trace re))).
Proof.
  intros Hx1 Hx2 Hn1' Hn2' Hd. cbv zeta.
  assert (Hn1 : 1 <= n1) by lia. assert (Hn2 : 1 <= n2) by lia.
  unfold calculate_embd_statistics. simpl fst. simpl snd.
  destruct (rect_square_cov n1 d x1 Hx1 Hn1 Hd) as [E1 Hs1].
  destruct (rect_square_cov n2 d x2 Hx2 Hn2 Hd) as [E2 Hs2].
  rewrite E1, E2. split; [assumption |]. split; [assumption |].
  assert (Hm1 : length (mean_axis0 x1) = d)
    by (rewrite length_mean_axis0; apply (rect_ncols n1 d x1 Hx1 Hn1)).
  assert (Hm2 : length (mean_axis0 x2) = d)
    by (rewrite length_mean_axis0; apply (rect_ncols n2 d x2 Hx2 Hn2)).
  assert (Hl1 : length (cov_matrix x1) = d) by apply Hs1.
  assert (Hl2 : length (cov_matrix x2) = d) by apply Hs2.
  rewrite frechet_after_asserts.
  - simpl atleast_1d. rewrite E1, E2. simpl arr_sub.
    change (mbind ?k (Ok ?a)) with (k a). cbv beta.
    unfold covmean_of, mdot.
    rewrite (square_ncols d _ Hs1). unfold nrows. rewrite Hl1, Hl2, Nat.eqb_refl.
    change (mbind ?k (Ok ?a)) with (k a). cbv beta.
    destruct (sqrtm (matmul (cov_matrix x1) (cov_matrix x2))) as [c0 | e]; simpl;
      [| reflexivity].
    pose proof (madd_square d _ _ Hs1 (offset_square d eps)) as Ho1.
    pose proof (madd_square d _ _ Hs2 (offset_square d eps)) as Ho2.
    rewrite (square_ncols d _ Ho1).
    replace (length (madd (cov_matrix x2) (mscale (eye d) eps))) with d
      by (symmetry; apply Ho2).
    rewrite Nat.eqb_refl.
    destruct (isfinite_all c0); simpl.
    + destruct (discard_imag c0); simpl; [| reflexivity].
      unfold frechet_formula. simpl.
      rewrite length_zip_with, Nat.eqb_refl. reflexivity.
    + destruct (sqrtm _) as [c1 | e]; simpl; [| reflexivity].
      destruct (discard_imag c1); simpl; [| reflexivity].
      unfold frechet_formula. simpl.
      rewrite length_zip_with, Nat.eqb_refl. reflexivity.
  - simpl. congruence.
  - rewrite E1, E2. unfold mshape, nrows.
    rewrite (square_ncols d _ Hs1), (square_ncols d _ Hs2). congruence.
Qed.

Lemma entry_cov_matrix (x : matrix F) i j :
  i < ncols x -> j < ncols x ->
  entry f0 (cov_matrix x) i j = vdot (centered x i) (centered x j) * cov_factor x.
Proof.
  intros Hi Hj. unfold entry, cov_matrix.
  rewrite (nth_map_seq (fun i => map (fun j => vdot (centered x i) (centered x j) * cov_factor x)
                                     (seq 0 (ncols x)))) by assumption.
  apply (nth_map_seq (fun j => vdot (centered x i) (centered x j) * cov_factor x)).
  assumption.
Qed.

(** X4: where the product of scalars commutes, the covariance the
    estimator returns for a batch of at least two rows, promoted to rank 2,
    is a square symmetric matrix, one row and one column per variable. *)
Theorem covariance_symmetric (x : matrix F) :
  2 <= nrows x ->
  ncols x <> 0 ->
  (forall a b : F, a * b = b * a) ->
  is_square (ncols x) (atleast_2d (snd (calculate_embd_statistics x)))
  /\ transpose f0 (atleast_2d (snd (calculate_embd_statistics x))) =
     atleast_2d (snd (calculate_embd_statistics x)).
Proof.
  intros _ Hd Hcomm. unfold calculate_embd_statistics. simpl snd.
  rewrite (atleast_2d_cov x Hd).
  pose proof (cov_matrix_square x) as Hsq. split; [assumption |].
  apply (matrix_ext f0 (ncols x)); [apply transpose_square; assumption | assumption |].
  intros i j Hi Hj.
  rewrite (entry_transpose f0 (ncols x)) by assumption.
  rewrite !entry_cov_matrix by assumption.
  f_equal. unfold vdot. f_equal. apply zip_with_comm. assumption.
Qed.

End EstimatorFacts.

(** * Further properties of the distance calculator *)

Section FrechetEdges.
Context {F : Type} `{Scalar F}.
Variable sqrtm : matrix F -> outcome F (carray F).

Local Open Scope scalar_scope.

(** Promoted means of one shape can be subtracted. *)
Lemma arr_sub_same_shape (mu1 mu2 : ndarray F) :
  shape (atleast_1d mu1) = shape (atleast_1d mu2) ->
  exists diff, arr_sub (atleast_1d mu1) (atleast_1d mu2) = Ok diff.
Proof.
  destruct mu1, mu2; simpl; intros Hs; try discriminate; eauto.
Qed.

(** X6: [eps] is read on the recovery path only: when the first square
    root is finite, the call returns the same for every [eps]. *)
Theorem eps_unused_when_finite mu1 sigma1 mu2 sigma2 p c0 eps eps' :
  mdot (atleast_2d sigma1) (atleast_2d sigma2) = Ok p ->
  sqrtm p = Ok c0 ->
  isfinite_all c0 = true ->
  calculate_frechet_distance sqrtm mu1 sigma1 mu2 sigma2 eps =
  calculate_frechet_distance sqrtm mu1 sigma1 mu2 sigma2 eps'.
Proof.
  intros Hp Hc Hfin. unfold calculate_frechet_distance.
  rewrite (covmean_of_finite sqrtm _ _ eps p c0 Hp Hc Hfin).
  rewrite (covmean_of_finite sqrtm _ _ eps' p c0 Hp Hc Hfin).
  reflexivity.
Qed.

(** X7: covariances of one shape that are not square once promoted (a
    vector of n <> 1 variances is promoted to 1 x n) pass both assertions
    and make the matrix product raise; [sqrtm] is not consulted. *)
Theorem nonsquare_covariance_raises mu1 sigma1 mu2 sigma2 eps :
  shape (atleast_1d mu1) = shape (atleast_1d mu2) ->
  mshape (atleast_2d sigma1) = mshape (atleast_2d sigma2) ->
  ncols (atleast_2d sigma1) <> nrows (atleast_2d sigma1) ->
  calculate_frechet_distance sqrtm mu1 sigma1 mu2 sigma2 eps =
    Raise (ValueError "shapes not aligned").
Proof.
  intros Hmu Hsigma Hns.
  rewrite frechet_after_asserts by assumption.
  destruct (arr_sub_same_shape mu1 mu2 Hmu) as [diff ->].
  change (mbind ?k (Ok ?a)) with (k a). cbv beta.
  unfold covmean_of, mdot.
  assert (Hrows : nrows (atleast_2d sigma2) = nrows (atleast_2d sigma1))
    by (unfold mshape in Hsigma; congruence).
  rewrite Hrows. apply Nat.eqb_neq in Hns. rewrite Hns. reflexivity.
Qed.

End FrechetEdges.

(** * Further properties of the collector, the cache and the orchestrator *)

Section OrchestratorEdges.
Context {F : Type} `{Scalar F}.
Context {tensor audio : Type}.
Variable resample_squeezed : tensor -> outcome F audio.
Variable resample : tensor -> outcome F audio.
Variable model_forward : audio -> Z -> outcome F (matrix F).
Variable sqrtm : matrix F -> outcome F (carray F).

Lemma map_outcome_Forall2 {A B} (f : A -> outcome F B) (x : list A) (l : list B) :
  Forall2 (fun a b => f a = Ok b) x l -> map_outcome f x = Ok l.
Proof.
  induction 1 as [| a b x l Hab _ IH]; simpl; [reflexivity |].
  rewrite Hab. simpl. rewrite IH. reflexivity.
Qed.

Lemma map_outcome_stops {A B} (f : A -> outcome F B) pre a post (l : list B) e :
  Forall2 (fun a b => f a = Ok b) pre l -> f a = Raise e ->
  map_outcome f (pre ++ a :: post) = Raise e.
Proof.
  intros Hpre Ha. induction Hpre as [| a' b x l' Hab _ IH]; simpl.
  - rewrite Ha. reflexivity.
  - rewrite Hab. simpl. rewrite IH. reflexivity.
Qed.

Lemma forward_runs_stops pre a post sr (l : list (matrix F)) e :
  Forall2 (fun a b => model_forward a sr = Ok b) pre l ->
  model_forward a sr = Raise e ->
  forward_runs model_forward (pre ++ a :: post) sr = length pre + 1.
Proof.
  intros Hpre Ha. induction Hpre as [| a' b x l' Hab _ IH]; simpl.
  - rewrite Ha. reflexivity.
  - rewrite Hab, IH. reflexivity.
Qed.

(** X1: on a non-empty sequence of waveforms that the network embeds
    without error, [get_embeddings] returns the frames of all waveforms
    in the order of the input and runs the network once per waveform. *)
Theorem get_embeddings_collects x sr w (l : list (matrix F)) :
  x <> [] ->
  Forall2 (fun a embd => model_forward a sr = Ok embd) x l ->
  get_embeddings model_forward x sr w = (Ok (concat l), ran (length x) w).
Proof.
  intros Hne Hall.
  apply get_embeddings_ok.
  - apply (map_outcome_Forall2 (fun a => model_forward a sr)). assumption.
  - intros ->. inversion Hall. subst. contradiction.
Qed.

(** X2: [get_embeddings] fails fast.  When the network raises on a
    waveform after embedding the ones before it, the call raises that
    error, returns no batch, and has not run the network on any later
    waveform. *)
Theorem get_embeddings_fails_fast pre a post sr w (l : list (matrix F)) e :
  Forall2 (fun a embd => model_forward a sr = Ok embd) pre l ->
  model_forward a sr = Raise e ->
  get_embeddings model_forward (pre ++ a :: post) sr w =
    (Raise e, ran (length pre + 1) w).
Proof.
  intros Hpre Ha. rewrite get_embeddings_spec.
  rewrite (map_outcome_stops (fun a => model_forward a sr) pre a post l e Hpre Ha).
  rewrite (forward_runs_stops pre a post sr l e Hpre Ha). reflexivity.
Qed.

(** [score] once the evaluation batch has been computed and is not empty. *)
Lemma score_after_evaluation background evaluation w x l :
  map_outcome resample evaluation = Ok x ->
  map_outcome (fun a => model_forward a SAMPLE_RATE) x = Ok l ->
  concat l <> [] ->
  score resample_squeezed resample model_forward sqrtm background evaluation w =
    (b ← calculate_embd_statistics_background resample_squeezed model_forward
           background ".tmp/";
     match b with
     | StatInt _ => lift (Raise (TypeError "cannot unpack non-iterable int object"))
     | Statistics mu_background sigma_background =>
         fad_score ← lift (calculate_frechet_distance sqrtm
                             mu_background sigma_background
                             (fst (calculate_embd_statistics (concat l)))
                             (snd (calculate_embd_statistics (concat l))) eps_default);
         mret (Distance fad_score)
     end) (ran (length evaluation) w).
Proof.
  intros Hx Hl Hne. unfold score.
  unfold mbind at 1. unfold M_bind, lift. rewrite Hx.
  unfold mbind at 1. unfold M_bind.
  rewrite (get_embeddings_ok _ _ _ _ _ Hl (concat_nonempty _ Hne)).
  rewrite (map_outcome_length _ _ _ Hx), (length_eqb_0 _ Hne). reflexivity.
Qed.

(** X9: a background set whose samples give no frame yields -1 and
    writes nothing, so the next call embeds the whole set again. *)
Theorem background_empty_batch_not_persisted background save_path w x l :
  files w !! cache_file save_path = None ->
  cache_file save_path ∉ dirs w ->
  map_outcome resample_squeezed background = Ok x ->
  map_outcome (fun a => model_forward a SAMPLE_RATE) x = Ok l ->
  l <> [] ->
  concat l = [] ->
  calculate_embd_statistics_background resample_squeezed model_forward
    background save_path w = (Ok (StatInt EMPTY), ran (length background) w)
  /\ calculate_embd_statistics_background resample_squeezed model_forward
       background save_path (ran (length background) w) =
     (Ok (StatInt EMPTY), ran (length background) (ran (length background) w)).
Proof.
  intros Hfile Hnd Hx Hl Hne Hempty. split.
  - rewrite (background_computed _ _ _ _ _ x l); try assumption.
    rewrite Hempty. reflexivity.
  - rewrite (background_computed _ _ _ _ _ x l); try assumption.
    rewrite Hempty. reflexivity.
Qed.

(** [score] when the statistics file exists. *)
Lemma score_with_file background evaluation w st x l :
  files w !! cache_file ".tmp/" = Some st ->
  map_outcome resample evaluation = Ok x ->
  map_outcome (fun a => model_forward a SAMPLE_RATE) x = Ok l ->
  concat l <> [] ->
  score resample_squeezed resample model_forward sqrtm background evaluation w =
    (omap Distance
       (calculate_frechet_distance sqrtm (fst st) (snd st)
          (fst (calculate_embd_statistics (concat l)))
          (snd (calculate_embd_statistics (concat l))) eps_default),
     ran (length evaluation) w).
Proof.
  intros Hfile Hx Hl Hne.
  rewrite (score_after_evaluation background evaluation w x l Hx Hl Hne).
  unfold mbind at 1. unfold M_bind.
  rewrite (background_cached _ _ _ _ _ st) by exact Hfile.
  unfold mbind, M_bind, lift.
  destruct (calculate_frechet_distance _ _ _ _ _ _); reflexivity.
Qed.

(** X10: with a statistics file at [.tmp/background_statistics.ptc],
    [score] compares the evaluation batch with the statistics of the file:
    the network runs on the evaluation samples only, no file is written,
    and the background set of the object is not read, so that any two
    background sets give the same result. *)
Theorem score_uses_cached_statistics background evaluation w st x l :
  files w !! cache_file ".tmp/" = Some st ->
  map_outcome resample evaluation = Ok x ->
  map_outcome (fun a => model_forward a SAMPLE_RATE) x = Ok l ->
  concat l <> [] ->
  score resample_squeezed resample model_forward sqrtm background evaluation w =
    (omap Distance
       (calculate_frechet_distance sqrtm (fst st) (snd st)
          (fst (calculate_embd_statistics (concat l)))
          (snd (calculate_embd_statistics (concat l))) eps_default),
     ran (length evaluation) w)
  /\ forall background',
       score resample_squeezed resample model_forward sqrtm background' evaluation w =
       score resample_squeezed resample model_forward sqrtm background evaluation w.
Proof.
  intros Hfile Hx Hl Hne. split.
  - apply (score_with_file background evaluation w st x l); assumption.
  - intros background'.
    rewrite (score_with_file background' evaluation w st x l) by assumption.
    rewrite (score_with_file background evaluation w st x l) by assumption.
    reflexivity.
Qed.

(** X11: when the evaluation samples give no frame, [score] returns -1
    after embedding them; the cache and the background set are not
    touched. *)
Theorem score_silent_evaluation_returns_empty background evaluation w x l :
  map_outcome resample evaluation = Ok x ->
  map_outcome (fun a => model_forward a SAMPLE_RATE) x = Ok l ->
  l <> [] ->
  concat l = [] ->
  score resample_squeezed resample model_forward sqrtm background evaluation w =
    (Ok (ScoreInt EMPTY), ran (length evaluation) w).
Proof.
  intros Hx Hl Hne Hempty. unfold score.
  unfold mbind at 1. unfold M_bind, lift. rewrite Hx.
  unfold mbind at 1. unfold M_bind.
  rewrite (get_embeddings_ok _ _ _ _ _ Hl Hne).
  rewrite (map_outcome_length _ _ _ Hx), Hempty. reflexivity.
Qed.

(** X13: a first run and the next.  With no file at the location, the
    directory [.tmp] in place and two sets that give frames, [score] embeds
    the evaluation samples, then the background samples, writes the
    background statistics and only then computes the distance: the file
    stays written whatever the distance call returns or raises.  A second
    call in the world the first one leaves returns the same distance or
    error, and runs the network on the evaluation samples only. *)
Theorem score_first_run background evaluation w x l xb lb :
  files w !! cache_file ".tmp/" = None ->
  cache_file ".tmp/" ∉ dirs w ->
  ".tmp" ∈ dirs w ->
  map_outcome resample evaluation = Ok x ->
  map_outcome (fun a => model_forward a SAMPLE_RATE) x = Ok l ->
  concat l <> [] ->
  map_outcome resample_squeezed background = Ok xb ->
  map_outcome (fun a => model_forward a SAMPLE_RATE) xb = Ok lb ->
  concat lb <> [] ->
  let distance :=
    omap Distance
      (calculate_frechet_distance sqrtm
         (fst (calculate_embd_statistics (concat lb)))
         (snd (calculate_embd_statistics (concat lb)))
         (fst (calculate_embd_statistics (concat l)))
         (snd (calculate_embd_statistics (concat l))) eps_default) in
  let w1 :=
    World (<[cache_file ".tmp/" := calculate_embd_statistics (concat lb)]> (files w))
          (dirs w)
          (forward_calls w + length evaluation + length background) in
  score resample_squeezed resample model_forward sqrtm background evaluation w =
    (distance, w1)
  /\ score resample_squeezed resample model_forward sqrtm background evaluation w1 =
    (distance, ran (length evaluation) w1).
Proof.
  intros Hfile Hnd Hdir Hx Hl Hne Hxb Hlb Hneb. cbv zeta. split.
  - rewrite (score_after_evaluation background evaluation w x l Hx Hl Hne).
    unfold mbind at 1. unfold M_bind.
    rewrite (background_computed _ _ _ _ _ xb lb); try assumption;
      [| apply (concat_nonempty _ Hneb)].
    rewrite (length_eqb_0 _ Hneb).
    unfold mbind at 1. unfold M_bind, torch_save.
    change (dirname (cache_file ".tmp/")) with ".tmp".
    simpl dirs. simpl files.
    rewrite (bool_decide_eq_true_2 (".tmp" ∈ dirs w)) by assumption.
    rewrite orb_true_r.
    rewrite (bool_decide_eq_false_2 (cache_file ".tmp/" ∈ dirs w)) by assumption.
    unfold mret, M_ret, mbind, M_bind, lift. simpl.
    destruct (calculate_frechet_distance _ _ _ _ _ _); reflexivity.
  - apply (score_with_file background evaluation _
             (calculate_embd_statistics (concat lb)) x l); try assumption.
    simpl. apply lookup_insert_eq.
Qed.

(** X14: the evaluation samples are all resampled before the network is
    run.  When resampling raises on one of them, [score] raises that
    error with the network not run on any sample and the cache not
    consulted. *)
Theorem score_resample_error background pre t post w (x : list audio) e :
  Forall2 (fun s a => resample s = Ok a) pre x ->
  resample t = Raise e ->
  score resample_squeezed resample model_forward sqrtm
    background (pre ++ t :: post) w = (Raise e, w).
Proof.
  intros Hpre Ht. unfold score. unfold mbind at 1. unfold M_bind, lift.
  rewrite (map_outcome_stops resample pre t post x e Hpre Ht). reflexivity.
Qed.

Lemma world_grows_refl p (w : world F) : world_grows p w w.
Proof. unfold world_grows. auto. Qed.

Lemma world_grows_ran p n (w : world F) : world_grows p w (ran n w).
Proof. unfold world_grows, ran. simpl. split; [reflexivity |]. split; [lia | auto]. Qed.

Lemma world_grows_after_ran p n (w w' : world F) :
  world_grows p (ran n w) w' -> world_grows p w w'.
Proof.
  unfold world_grows, ran. simpl. intros (Hd & Hc & Hf).
  split; [assumption |]. split; [lia | assumption].
Qed.

Lemma background_world_grows background save_path w :
  world_grows (cache_file save_path) w
    (snd (calculate_embd_statistics_background resample_squeezed model_forward
            background save_path w)).
Proof.
  unfold calculate_embd_statistics_background. fold (cache_file save_path).
  unfold mbind at 1. unfold M_bind, path_exists.
  destruct (files w !! cache_file save_path) as [st |] eqn:Efile.
  - rewrite bool_decide_eq_true_2 by eauto. simpl.
    unfold mbind, M_bind, torch_load. rewrite Efile. apply world_grows_refl.
  - rewrite bool_decide_eq_false_2 by (intros [? ?]; discriminate). simpl.
    destruct (bool_decide (cache_file save_path ∈ dirs w)) eqn:Edir.
    + unfold mbind, M_bind, torch_load. rewrite Efile. apply world_grows_refl.
    + unfold mbind at 1. unfold M_bind, lift.
      destruct (map_outcome resample_squeezed background) as [x | e];
        [| apply world_grows_refl].
      unfold mbind at 1. unfold M_bind. rewrite get_embeddings_spec.
      destruct (mbind _ (map_outcome _ x)) as [embds | e];
        [| apply world_grows_ran].
      destruct (length embds =? 0); [apply world_grows_ran |].
      unfold mbind, M_bind, torch_save. simpl.
      destruct (bool_decide (dirname (cache_file save_path) = EmptyString)
                || bool_decide (dirname (cache_file save_path) ∈ dirs w));
        [| apply world_grows_ran].
      rewrite Edir. simpl.
      unfold world_grows. simpl. split; [reflexivity |]. split; [lia |].
      right. split; [assumption |]. eauto.
Qed.

(** X12: what the two stateful entry points leave behind.  Whatever the
    sets, the collaborators and the outcome, a call creates or removes no
    directory, removes or overwrites no file, and writes at most the one
    statistics file of its location, and only where none was. *)
Theorem calls_only_add_the_cache_file background evaluation save_path w :
  world_grows (cache_file save_path) w
    (snd (calculate_embd_statistics_background resample_squeezed model_forward
            background save_path w))
  /\ world_grows (cache_file ".tmp/") w
       (snd (score resample_squeezed resample model_forward sqrtm
               background evaluation w)).
Proof.
  split; [apply background_world_grows |].
  unfold score. unfold mbind at 1. unfold M_bind, lift.
  destruct (map_outcome resample evaluation) as [x | e]; [| apply world_grows_refl].
  unfold mbind at 1. unfold M_bind. rewrite get_embeddings_spec.
  destruct (mbind _ (map_outcome _ x)) as [embds | e]; [| apply world_grows_ran].
  destruct (length embds =? 0); [apply world_grows_ran |].
  apply (world_grows_after_ran _ (forward_runs model_forward x SAMPLE_RATE)).
  unfold mbind at 1. unfold M_bind.
  pose proof (background_world_grows background ".tmp/"
                (ran (forward_runs model_forward x SAMPLE_RATE) w)) as Hbg.
  destruct (calculate_embd_statistics_background _ _ _ _ _) as [[b | e] w'];
    simpl in Hbg; [| exact Hbg].
  destruct b as [mu sigma | z]; [| exact Hbg].
  unfold mbind, M_bind, lift.
  destruct (calculate_embd_statistics embds) as [mu_eval sigma_eval].
  destruct (calculate_frechet_distance _ _ _ _ _ _); exact Hbg.
Qed.

End OrchestratorEdges.

(** * The further properties on concrete inputs *)

Section FurtherWitnesses.
Import Binary64 FurtherExamples.
Local Open Scope float_scope.

Lemma get_embeddings_collects_witness :
  get_embeddings network evaluation_set SAMPLE_RATE prepared_world =
    (Ok [[0; 2]; [2; 2]], ran 2 prepared_world).
Proof.
  apply (get_embeddings_collects network evaluation_set SAMPLE_RATE prepared_world
           evaluation_set).
  - discriminate.
  - repeat constructor.
Defined.

Lemma get_embeddings_fails_fast_witness :
  get_embeddings picky_network ([[[0; 2]]] ++ [] :: [[[2; 2]]]) SAMPLE_RATE prepared_world =
    (Raise (CollaboratorError "waveform too short"), ran 2 prepared_world).
Proof.
  apply (get_embeddings_fails_fast picky_network [[[0; 2]]] [] [[[2; 2]]]
           SAMPLE_RATE prepared_world [[[0; 2]]]).
  - repeat constructor.
  - reflexivity.
Defined.

Lemma estimator_feeds_distance_witness :
  calculate_frechet_distance sqrtm_entrywise
    (fst (calculate_embd_statistics background_embeddings))
    (snd (calculate_embd_statistics background_embeddings))
    (fst (calculate_embd_statistics evaluation_embeddings))
    (snd (calculate_embd_statistics evaluation_embeddings)) eps_default = Ok (Arr0 4).
Proof.
  destruct (estimator_feeds_distance sqrtm_entrywise 2 2 2
              background_embeddings evaluation_embeddings eps_default)
    as (_ & _ & Heq);
    [split; [reflexivity | repeat constructor]
    | split; [reflexivity | repeat constructor]
    | lia | lia | lia |].
  rewrite Heq. vm_compute. reflexivity.
Defined.

(** The binary64 product commutes: [mul_spec] reads it off the product
    of the two decoded operands, which is symmetric in them. *)
Lemma SFmul_comm prec emax x y :
  SpecFloat.SFmul prec emax x y = SpecFloat.SFmul prec emax y x.
Proof.
  destruct x as [sx | sx | | sx mx ex], y as [sy | sy | | sy my ey]; simpl;
    rewrite ?(xorb_comm sx sy); try reflexivity.
  rewrite (Pos.mul_comm mx my), (Z.add_comm ex ey). reflexivity.
Qed.

Lemma float_mul_comm (x y : float) : x * y = y * x.
Proof. apply Prim2SF_inj. rewrite !mul_spec. apply SFmul_comm. Qed.

Lemma covariance_symmetric_witness :
  is_square (ncols batch) (atleast_2d (snd (calculate_embd_statistics batch)))
  /\ transpose f0 (atleast_2d (snd (calculate_embd_statistics batch))) =
     atleast_2d (snd (calculate_embd_statistics batch)).
Proof.
  apply (covariance_symmetric batch).
  - unfold nrows, batch. simpl. lia.
  - discriminate.
  - exact float_mul_comm.
Defined.

Lemma eps_unused_when_finite_witness :
  calculate_frechet_distance sqrtm_entrywise
    example_mu1 example_sigma example_mu2 example_sigma eps_default =
  calculate_frechet_distance sqrtm_entrywise
    example_mu1 example_sigma example_mu2 example_sigma 1.
Proof.
  apply (eps_unused_when_finite sqrtm_entrywise
           example_mu1 example_sigma example_mu2 example_sigma
           [[4; 0]; [0; 0]] (RealArr [[2; 0]; [0; 0]]) eps_default 1);
    vm_compute; reflexivity.
Defined.

Lemma nonsquare_covariance_raises_witness :
  calculate_frechet_distance sqrtm_entrywise
    example_mu1 variance_vector example_mu2 variance_vector eps_default =
  Raise (ValueError "shapes not aligned").
Proof.
  apply (nonsquare_covariance_raises sqrtm_entrywise
           example_mu1 variance_vector example_mu2 variance_vector eps_default).
  - reflexivity.
  - reflexivity.
  - vm_compute. discriminate.
Defined.

Lemma background_empty_batch_not_persisted_witness :
  calculate_embd_statistics_background resample_id network
    silent_set ".tmp/" prepared_world = (Ok (StatInt EMPTY), ran 2 prepared_world)
  /\ calculate_embd_statistics_background resample_id network
       silent_set ".tmp/" (ran 2 prepared_world) =
     (Ok (StatInt EMPTY), ran 2 (ran 2 prepared_world)).
Proof.
  apply (background_empty_batch_not_persisted resample_id network
           silent_set ".tmp/" prepared_world silent_set silent_set).
  - reflexivity.
  - intros Hin. unfold prepared_world, dirs in Hin.
    apply elem_of_singleton in Hin. discriminate.
  - reflexivity.
  - reflexivity.
  - discriminate.
  - reflexivity.
Defined.

Lemma score_uses_cached_statistics_witness :
  score resample_id resample_id network sqrtm_entrywise
    silent_set evaluation_set cached_world =
  (Ok (Distance (Arr0 4)), ran 2 cached_world)
  /\ score resample_id resample_id network sqrtm_entrywise
       background_set evaluation_set cached_world =
     score resample_id resample_id network sqrtm_entrywise
       silent_set evaluation_set cached_world.
Proof.
  destruct (score_uses_cached_statistics resample_id resample_id network sqrtm_entrywise
              silent_set evaluation_set cached_world
              (Arr1 [1; 0], Arr2 [[2; 0]; [0; 0]]) evaluation_set evaluation_set)
    as [Heq Hsame].
  - unfold cached_world, files. apply lookup_singleton_eq.
  - reflexivity.
  - reflexivity.
  - discriminate.
  - split; [rewrite Heq; vm_compute; reflexivity | apply Hsame].
Defined.

Lemma score_silent_evaluation_returns_empty_witness :
  score resample_id resample_id network sqrtm_entrywise
    background_set silent_set fresh_world =
  (Ok (ScoreInt EMPTY), ran 2 fresh_world).
Proof.
  apply (score_silent_evaluation_returns_empty resample_id resample_id network
           sqrtm_entrywise background_set silent_set fresh_world silent_set silent_set).
  - reflexivity.
  - reflexivity.
  - discriminate.
  - reflexivity.
Defined.

Lemma score_first_run_witness :
  score resample_id resample_id network sqrtm_entrywise
    background_set evaluation_set prepared_world =
  (Ok (Distance (Arr0 4)),
   World {[ cache_file ".tmp/" := (Arr1 [1; 0], Arr2 [[2; 0]; [0; 0]]) ]} {[ ".tmp" ]} 4)
  /\ score resample_id resample_id network sqrtm_entrywise
       background_set evaluation_set
       (World {[ cache_file ".tmp/" := (Arr1 [1; 0], Arr2 [[2; 0]; [0; 0]]) ]}
              {[ ".tmp" ]} 4) =
     (Ok (Distance (Arr0 4)),
      World {[ cache_file ".tmp/" := (Arr1 [1; 0], Arr2 [[2; 0]; [0; 0]]) ]}
            {[ ".tmp" ]} 6).
Proof.
  destruct (score_first_run resample_id resample_id network sqrtm_entrywise
              background_set evaluation_set prepared_world
              evaluation_set evaluation_set background_set background_set)
    as [Hfirst Hsecond].
  - reflexivity.
  - intros Hin. unfold prepared_world, dirs in Hin.
    apply elem_of_singleton in Hin. discriminate.
  - unfold prepared_world, dirs. apply elem_of_singleton. reflexivity.
  - reflexivity.
  - reflexivity.
  - discriminate.
  - reflexivity.
  - reflexivity.
  - discriminate.
  - split.
    + rewrite Hfirst. vm_compute. reflexivity.
    + etransitivity; [| etransitivity; [exact Hsecond |]]; vm_compute; reflexivity.
Defined.

(** A sample the resampler rejects. *)
Lemma score_resample_error_witness :
  score resample_id picky_resample network sqrtm_entrywise
    background_set ([[[0; 2]]] ++ [] :: [[[2; 2]]]) prepared_world =
  (Raise (CollaboratorError "sample without signal"), prepared_world).
Proof.
  apply (score_resample_error resample_id picky_resample network sqrtm_entrywise
           background_set [[[0; 2]]] [] [[[2; 2]]] prepared_world [[[0; 2]]]).
  - repeat constructor.
  - reflexivity.
Defined.

End FurtherWitnesses.
